(** * Credit Score Prediction API: a shallow embedding of [src/app.py]

    The development follows the module top-down:

    - [Text]: the [str] methods the module relies on ([in], [splitlines],
      [join]) and the scanning helpers of the number parsers;
    - [PyFloat]: binary64 values, rounding of decimal literals and of
      integers to them, and [repr];
    - [Py]: JSON-shaped Python values, exceptions, [str], [repr], [int],
      [float], [json.dumps] and insertion-ordered dictionaries;
    - [Cloud]: the state the module touches through boto3 (one S3 bucket,
      the CloudWatch calls made so far, the wall clock) and a small
      state-and-exception monad over it;
    - [App]: [FEATURE_ORDER], [_normalise_value], [prepare_payload],
      [write_real_data_to_s3], [publish_metrics] and [handler];
    - the theorems, one group per function.

    Text is modelled by Rocq strings read as sequences of code points
    below U+0100; every character class used below (white space,
    line boundaries, printability) is the restriction of CPython's to that
    range.  Logging calls have no effect on the modelled state and are
    omitted. *)

From Stdlib Require Import ZArith List String Ascii Bool Lia SpecFloat.
From Stdlib Require Import DecimalString DecimalPos.
From stdpp Require Import gmap strings.
Import ListNotations.

Open Scope string_scope.
Open Scope Z_scope.

(* ===================================================================== *)
(** * Text *)
(* ===================================================================== *)

Module Text.

Definition code (c : ascii) : Z := Z.of_N (N_of_ascii c).
Definition chr (n : Z) : ascii := ascii_of_N (Z.to_N n).

(** The double quote, the backslash and the control characters that the
    escapes below mention. *)
Definition dquote : ascii := "034"%char.
Definition squote : ascii := "039"%char.
Definition backslash : ascii := "092"%char.
Definition LF : ascii := "010"%char.
Definition CR : ascii := "013"%char.
Definition TAB : ascii := "009"%char.
Definition newline : string := String LF "".

(** The white space that [int] and [float] skip at both ends of their
    argument. *)
Definition is_space (c : ascii) : bool :=
  let n := code c in
  ((9 <=? n) && (n <=? 13)) || (n =? 32) || (n =? 133) || (n =? 160).

(** The line boundaries recognised by [str.splitlines]. *)
Definition is_linebreak (c : ascii) : bool :=
  let n := code c in
  ((10 <=? n) && (n <=? 13)) || ((28 <=? n) && (n <=? 30)) || (n =? 133).

Definition is_digit (c : ascii) : bool :=
  let n := code c in (48 <=? n) && (n <=? 57).

Definition digit_val (c : ascii) : Z := code c - 48.

(** [str.isprintable] on one character (it decides what [repr] escapes). *)
Definition is_printable (c : ascii) : bool :=
  let n := code c in
  ((32 <=? n) && (n <=? 126)) || ((161 <=? n) && negb (n =? 173)).

(** [needle in hay] for two strings. *)
Fixpoint contains (needle hay : string) : bool :=
  String.prefix needle hay
  || match hay with
     | EmptyString => false
     | String _ rest => contains needle rest
     end.

Fixpoint has_char (p : ascii -> bool) (s : string) : bool :=
  match s with
  | EmptyString => false
  | String c rest => p c || has_char p rest
  end.

(** A text without line boundary. *)
Definition break_free (s : string) : Prop := has_char is_linebreak s = false.

(** [sep.join(parts)]. *)
Definition join (sep : string) (parts : list string) : string :=
  String.concat sep parts.

(** [s.splitlines()]: a line ends at a line boundary, [\r\n] counts as
    one boundary, and a trailing boundary opens no further line. *)
Fixpoint splitlines (s : string) : list string :=
  match s with
  | EmptyString => []
  | String c rest =>
      if is_linebreak c then
        "" :: match rest with
              | String c' rest' =>
                  if Ascii.eqb c CR && Ascii.eqb c' LF
                  then splitlines rest' else splitlines rest
              | EmptyString => []
              end
      else match splitlines rest with
           | [] => [String c ""]
           | l :: ls => String c l :: ls
           end
  end.

Fixpoint lstrip (s : string) : string :=
  match s with
  | String c rest => if is_space c then lstrip rest else s
  | EmptyString => ""
  end.

Fixpoint rstrip (s : string) : string :=
  match s with
  | String c rest =>
      match rstrip rest with
      | EmptyString => if is_space c then "" else String c ""
      | r => String c r
      end
  | EmptyString => ""
  end.

(** [s] without the white space at its two ends. *)
Definition strip (s : string) : string := rstrip (lstrip s).

Definition lower (c : ascii) : ascii :=
  let n := code c in
  if (65 <=? n) && (n <=? 90) then chr (n + 32) else c.

Fixpoint lower_str (s : string) : string :=
  match s with
  | String c rest => String (lower c) (lower_str rest)
  | EmptyString => ""
  end.

(** Decimal rendering of an integer, as [str(int)] gives it. *)
Definition of_Z (z : Z) : string := NilZero.string_of_int (Z.to_int z).

Fixpoint repeat_char (c : ascii) (n : nat) : string :=
  match n with
  | O => ""
  | S k => String c (repeat_char c k)
  end.

(** [str(n).zfill(w)] for a natural [n]: the [%02d]-style fields of
    [strftime]. *)
Definition zero_pad (w : nat) (n : Z) : string :=
  let s := of_Z n in
  repeat_char "0"%char (w - String.length s)%nat ++ s.

Definition hex_digit (n : Z) : ascii :=
  if n <? 10 then chr (48 + n) else chr (87 + n).

(** Two lowercase hexadecimal digits of a character code. *)
Definition hex2 (c : ascii) : string :=
  let n := code c in
  String (hex_digit (n / 16)) (String (hex_digit (n mod 16)) "").

End Text.

(* ===================================================================== *)
(** * Binary64 floating-point numbers *)
(* ===================================================================== *)

Module PyFloat.

(** A Python [float] is an IEEE 754 binary64 number; [spec_float] carries
    its sign, integer significand and exponent ([m * 2^e]). *)
Definition prec : Z := 53.
Definition emax : Z := 1024.

Definition eqb (x y : spec_float) : bool :=
  match x, y with
  | S754_zero a, S754_zero b => Bool.eqb a b
  | S754_infinity a, S754_infinity b => Bool.eqb a b
  | S754_nan, S754_nan => true
  | S754_finite a m e, S754_finite b n f =>
      Bool.eqb a b && Pos.eqb m n && Z.eqb e f
  | _, _ => false
  end.

(** The binary64 number nearest to [d * 10^k] (ties to even), with the
    sign [neg]: what [float] makes of a decimal literal.  For [k < 0] the
    quotient is computed with more than 64 significant bits and a sticky
    bit, so that the final rounding sees on which side of a midpoint the
    exact value lies. *)
Definition of_decimal (neg : bool) (d k : Z) : spec_float :=
  match d with
  | Z.pos p =>
      if 0 <=? k then
        match d * 10 ^ k with
        | Z.pos n => binary_round prec emax neg n 0
        | _ => S754_zero neg
        end
      else
        let den := 10 ^ (- k) in
        let s := Z.max 0 (66 + Z.log2 den - Z.log2 d) in
        let num := d * 2 ^ s in
        let q := num / den in
        let sticky := if num mod den =? 0 then 0 else 1 in
        match 2 * q + sticky with
        | Z.pos n => binary_round prec emax neg n (- (s + 1))
        | _ => S754_zero neg
        end
  | _ => S754_zero neg
  end.

(** [float(n)] for an integer, before the overflow check. *)
Definition of_int (n : Z) : spec_float :=
  binary_normalize prec emax n 0 false.

Definition is_inf (x : spec_float) : bool :=
  match x with S754_infinity _ => true | _ => false end.

(** ** [repr(float)]: the shortest decimal string that reads back as the
    same number *)

(** [v = num / den] lies in [[10^t, 10^(t+1))]. *)
Definition in_decade (num den t : Z) : bool :=
  if 0 <=? t
  then (10 ^ t * den <=? num) && (num <? 10 ^ (t + 1) * den)
  else (den <=? num * 10 ^ (- t))
       && (if t + 1 <=? 0 then num * 10 ^ (- (t + 1)) <? den
           else num <? 10 ^ (t + 1) * den).

Definition decade (m : positive) (e : Z) (num den : Z) : Z :=
  let est := ((Z.log2 (Z.pos m) + e) * 30103) / 100000 in
  if in_decade num den (est - 1) then est - 1
  else if in_decade num den est then est
  else est + 1.

(** The [p]-digit decimal nearest to [num / den] among those that read
    back as [x], if there is one: the candidates are the two [p]-digit
    neighbours of the exact value. *)
Definition digits_at (x : spec_float) (num den t : Z) (p : Z)
  : option (Z * Z) :=
  let q := t - p + 1 in
  let n := if 0 <=? q then num else num * 10 ^ (- q) in
  let d := if 0 <=? q then den * 10 ^ q else den in
  let lo := n / d in
  let r := n mod d in
  let hi := if r =? 0 then lo else lo + 1 in
  let ok_lo := eqb (of_decimal false lo q) x in
  let ok_hi := eqb (of_decimal false hi q) x in
  let prefer_hi := (d <? 2 * r) || ((d =? 2 * r) && Z.odd lo) in
  if ok_lo && ok_hi then Some (if prefer_hi then hi else lo, q)
  else if ok_lo then Some (lo, q)
  else if ok_hi then Some (hi, q)
  else None.

Fixpoint shortest (x : spec_float) (num den t : Z) (p : Z) (fuel : nat)
  : Z * Z :=
  match fuel with
  | O => (num / den, 0)
  | S fuel' =>
      match digits_at x num den t p with
      | Some r => r
      | None => shortest x num den t (p + 1) fuel'
      end
  end.

Fixpoint strip_zeros (d q : Z) (fuel : nat) : Z * Z :=
  match fuel with
  | O => (d, q)
  | S fuel' =>
      if (d mod 10 =? 0) && negb (d =? 0)
      then strip_zeros (d / 10) (q + 1) fuel' else (d, q)
  end.

(** Layout of the digits [ds] with the decimal point after [decpt] of
    them: fixed notation for [-4 < decpt <= 16], scientific otherwise. *)
Definition layout (ds : string) (decpt : Z) : string :=
  let n := Z.of_nat (String.length ds) in
  if (decpt <? -3) || (16 <? decpt) then
    let ex := decpt - 1 in
    let mant :=
      match ds with
      | String c EmptyString => String c ""
      | String c rest => String c ("." ++ rest)
      | EmptyString => ""
      end in
    mant ++ "e" ++ (if ex <? 0 then "-" else "+")
         ++ Text.zero_pad 2 (Z.abs ex)
  else if decpt <=? 0 then
    "0." ++ Text.repeat_char "0"%char (Z.to_nat (- decpt)) ++ ds
  else if decpt <? n then
    String.substring 0 (Z.to_nat decpt) ds ++ "."
      ++ String.substring (Z.to_nat decpt) (Z.to_nat (n - decpt)) ds
  else
    ds ++ Text.repeat_char "0"%char (Z.to_nat (decpt - n)) ++ ".0".

Definition repr (x : spec_float) : string :=
  match x with
  | S754_nan => "nan"
  | S754_infinity s => if s then "-inf" else "inf"
  | S754_zero s => if s then "-0.0" else "0.0"
  | S754_finite s m e =>
      let num := if 0 <=? e then Z.pos m * 2 ^ e else Z.pos m in
      let den := if 0 <=? e then 1 else 2 ^ (- e) in
      let t := decade m e num den in
      let '(d0, q0) := shortest (S754_finite false m e) num den t 1 17 in
      let '(d, q) := strip_zeros d0 q0 20 in
      let ds := Text.of_Z d in
      (if s then "-" else "")
        ++ layout ds (Z.of_nat (String.length ds) + q)
  end.

End PyFloat.

(* ===================================================================== *)
(** * Python values, exceptions and built-ins *)
(* ===================================================================== *)

Module Py.

(** The values a decoded JSON document is made of.  A [dict] keeps its
    insertion order (the header of the daily log depends on it), so it is
    an association list; its keys are strings, as in JSON.  An integer
    [PInt n] stands for a Python [int] that [str] can write, one of at
    most 4300 digits under the interpreter's default limit: [int] and
    the JSON decoder yield no other, and [str], [repr] and [json.dumps]
    are modelled on these. *)
#[warnings="-register-all"]
Inductive PyVal : Type :=
| PNone
| PBool (b : bool)
| PInt (n : Z)
| PFloat (f : spec_float)
| PStr (s : string)
| PList (xs : list PyVal)
| PDict (kvs : list (string * PyVal)).

Definition dict : Type := list (string * PyVal).

(** Exception classes that the module raises or meets; all of them derive
    from [Exception].  [str(exc)] is the message. *)
Inductive ExnClass : Type :=
| ValueError | TypeError | KeyError | IndexError | AttributeError
| OverflowError | JSONDecodeError | NoSuchKey | ClientError.

Record Exn : Type := mkExn { exn_class : ExnClass; exn_str : string }.

Inductive Outcome (A : Type) : Type :=
| Return (a : A)
| Raise (e : Exn).
Arguments Return {A} a.
Arguments Raise {A} e.

Definition obind {A B} (x : Outcome A) (k : A -> Outcome B) : Outcome B :=
  match x with
  | Return a => k a
  | Raise e => Raise e
  end.

Definition returns {A} (x : Outcome A) : bool :=
  match x with Return _ => true | Raise _ => false end.

(** The results of [f] on the elements of [xs], left to right, up to the
    first exception. *)
Fixpoint traverse {A B} (f : A -> Outcome B) (xs : list A)
  : Outcome (list B) :=
  match xs with
  | [] => Return []
  | x :: rest =>
      obind (f x) (fun y => obind (traverse f rest) (fun ys =>
        Return (y :: ys)))
  end.

(** ** Dictionaries *)

Definition dict_get (k : string) (d : dict) : option PyVal :=
  match find (fun kv => String.eqb k (fst kv)) d with
  | Some kv => Some (snd kv)
  | None => None
  end.

Definition dict_has (k : string) (d : dict) : bool :=
  existsb (fun kv => String.eqb k (fst kv)) d.

(** [d[k] = v]: an existing key keeps its position, a new key goes last. *)
Fixpoint dict_set (k : string) (v : PyVal) (d : dict) : dict :=
  match d with
  | [] => [(k, v)]
  | (k', v') :: rest =>
      if String.eqb k k' then (k, v) :: rest
      else (k', v') :: dict_set k v rest
  end.

Definition dict_keys (d : dict) : list string := map fst d.
Definition dict_values (d : dict) : list PyVal := map snd d.

(** [d.get(k, default)]. *)
Definition dict_get_default (k : string) (default : PyVal) (d : dict)
  : PyVal :=
  match dict_get k d with Some v => v | None => default end.

(** ** [repr] and [str] *)

Definition repr_char (quote c : ascii) : string :=
  if Ascii.eqb c Text.backslash then String Text.backslash (String c "")
  else if Ascii.eqb c quote then String Text.backslash (String c "")
  else if Ascii.eqb c Text.TAB then String Text.backslash "t"
  else if Ascii.eqb c Text.LF then String Text.backslash "n"
  else if Ascii.eqb c Text.CR then String Text.backslash "r"
  else if Text.is_printable c then String c ""
  else String Text.backslash ("x" ++ Text.hex2 c).

Fixpoint repr_chars (quote : ascii) (s : string) : string :=
  match s with
  | EmptyString => ""
  | String c rest => repr_char quote c ++ repr_chars quote rest
  end.

(** [repr(s)] for a string: single quotes, unless the text has a single
    quote and no double quote. *)
Definition repr_str (s : string) : string :=
  let quote :=
    if Text.has_char (Ascii.eqb Text.squote) s
       && negb (Text.has_char (Ascii.eqb Text.dquote) s)
    then Text.dquote else Text.squote in
  String quote (repr_chars quote s ++ String quote "").

Fixpoint repr (v : PyVal) : string :=
  match v with
  | PNone => "None"
  | PBool b => if b then "True" else "False"
  | PInt n => Text.of_Z n
  | PFloat f => PyFloat.repr f
  | PStr s => repr_str s
  | PList xs => "[" ++ Text.join ", " (map repr xs) ++ "]"
  | PDict kvs =>
      "{" ++ Text.join ", "
               (map (fun kv => repr_str (fst kv) ++ ": " ++ repr (snd kv))
                    kvs)
          ++ "}"
  end.

(** [str(v)], for integers within the limit of 4300 digits (beyond it
    the interpreter raises a [ValueError] instead). *)
Definition str (v : PyVal) : string :=
  match v with
  | PStr s => s
  | _ => repr v
  end.

Definition type_name (v : PyVal) : string :=
  match v with
  | PNone => "NoneType"
  | PBool _ => "bool"
  | PInt _ => "int"
  | PFloat _ => "float"
  | PStr _ => "str"
  | PList _ => "list"
  | PDict _ => "dict"
  end.

(** ** [int(str)] and [float(str)] *)

(** Value of a run of decimal digits in which single underscores may
    separate digits; [prev] tells whether the previous character was a
    digit. *)
Fixpoint digits_value (s : string) (acc : Z) (prev : bool) : option Z :=
  match s with
  | EmptyString => if prev then Some acc else None
  | String c rest =>
      if Text.is_digit c
      then digits_value rest (acc * 10 + Text.digit_val c) true
      else if Ascii.eqb c "_"%char && prev then digits_value rest acc false
      else None
  end.

Definition int_literal (s : string) : option Z :=
  match Text.strip s with
  | String "+"%char rest => digits_value rest 0 false
  | String "-"%char rest => option_map Z.opp (digits_value rest 0 false)
  | t => digits_value t 0 false
  end.

(** The number of digits of the run of digits and single underscores that
    opens [s], when that run is well formed (it starts and ends with a
    digit and has no two underscores in a row). *)
Fixpoint digit_run (s : string) (count : Z) (prev : bool) : option Z :=
  match s with
  | EmptyString => if prev then Some count else None
  | String c rest =>
      if Text.is_digit c then digit_run rest (count + 1) true
      else if Ascii.eqb c "_"%char
      then if prev then digit_run rest count false else None
      else if prev then Some count else None
  end.

(** The digits that [int] finds after the white space and the sign. *)
Definition digit_count (s : string) : option Z :=
  match Text.strip s with
  | String "+"%char rest => digit_run rest 0 false
  | String "-"%char rest => digit_run rest 0 false
  | t => digit_run t 0 false
  end.

(** The interpreter's default limit on the digits of an integer that is
    read from or written as text ([sys.get_int_max_str_digits()]). *)
Definition max_str_digits : Z := 4300.

Definition too_many_digits (n : Z) : Exn :=
  mkExn ValueError
    ("Exceeds the limit (4300 digits) for integer string conversion: "
       ++ "value has " ++ Text.of_Z n
       ++ " digits; use sys.set_int_max_str_digits() to increase the limit").

(** [int(s)] in base 10.  A run of more than [max_str_digits] digits is
    refused before anything after it is looked at; the message for any
    other bad literal shows at most 200 characters of [repr(s)]. *)
Definition int_of_str (s : string) : Outcome Z :=
  match digit_count s with
  | Some n =>
      if max_str_digits <? n then Raise (too_many_digits n)
      else match int_literal s with
           | Some v => Return v
           | None =>
               Raise (mkExn ValueError
                        ("invalid literal for int() with base 10: "
                           ++ String.substring 0 200 (repr_str s)))
           end
  | None =>
      Raise (mkExn ValueError
               ("invalid literal for int() with base 10: "
                  ++ String.substring 0 200 (repr_str s)))
  end.

(** Underscores of a float literal must stand between two digits; they are
    dropped before the number is read. *)
Fixpoint drop_underscores (s : string) (prev : ascii) : option string :=
  match s with
  | EmptyString => if Ascii.eqb prev "_"%char then None else Some ""
  | String c rest =>
      if Ascii.eqb c "_"%char then
        if Text.is_digit prev then drop_underscores rest c else None
      else if Ascii.eqb prev "_"%char && negb (Text.is_digit c) then None
      else option_map (String c) (drop_underscores rest c)
  end.

(** The longest prefix of digits: its value, its length and what follows. *)
Fixpoint span_digits (s : string) (acc : Z) (len : Z) : Z * Z * string :=
  match s with
  | String c rest =>
      if Text.is_digit c
      then span_digits rest (acc * 10 + Text.digit_val c) (len + 1)
      else (acc, len, s)
  | EmptyString => (acc, len, s)
  end.

Definition split_sign (s : string) : bool * string :=
  match s with
  | String "+"%char rest => (false, rest)
  | String "-"%char rest => (true, rest)
  | _ => (false, s)
  end.

(** The exponent part [e[+-]digits] that ends a literal; an absent
    exponent is 0. *)
Definition exponent_part (s : string) : option Z :=
  match s with
  | EmptyString => Some 0
  | String c rest =>
      if Ascii.eqb (Text.lower c) "e"%char then
        let '(neg, ds) := split_sign rest in
        match span_digits ds 0 0 with
        | (v, len, EmptyString) =>
            if 0 <? len then Some (if neg then - v else v) else None
        | _ => None
        end
      else None
  end.

Definition float_literal (s : string) : option spec_float :=
  match drop_underscores (Text.strip s) "000"%char with
  | None => None
  | Some t =>
      let '(neg, body) := split_sign t in
      let word := Text.lower_str body in
      if String.eqb word "inf" || String.eqb word "infinity"
      then Some (S754_infinity neg)
      else if String.eqb word "nan" then Some S754_nan
      else
        let '(ip, ilen, r1) := span_digits body 0 0 in
        let '(m, flen, r2) :=
          match r1 with
          | String "."%char r => span_digits r ip 0
          | _ => (ip, 0, r1)
          end in
        if 0 <? ilen + flen then
          match exponent_part r2 with
          | Some ex => Some (PyFloat.of_decimal neg m (ex - flen))
          | None => None
          end
        else None
  end.

(** [float(s)] for a string. *)
Definition float_of_str (s : string) : Outcome spec_float :=
  match float_literal s with
  | Some f => Return f
  | None =>
      Raise (mkExn ValueError
               ("could not convert string to float: " ++ repr_str s))
  end.

(** [float(v)]. *)
Definition float (v : PyVal) : Outcome spec_float :=
  match v with
  | PFloat f => Return f
  | PInt n =>
      let f := PyFloat.of_int n in
      if PyFloat.is_inf f
      then Raise (mkExn OverflowError "int too large to convert to float")
      else Return f
  | PBool b => Return (PyFloat.of_int (if b then 1 else 0))
  | PStr s => float_of_str s
  | _ =>
      Raise (mkExn TypeError
               ("float() argument must be a string or a real number, not '"
                  ++ type_name v ++ "'"))
  end.

(** ** The container protocol, as far as the module uses it *)

(** [key in data] for a string [key]. *)
Definition contains (key : string) (data : PyVal) : Outcome bool :=
  match data with
  | PDict d => Return (dict_has key d)
  | PStr s => Return (Text.contains key s)
  | PList xs =>
      Return (existsb (fun x => match x with
                                | PStr s => String.eqb key s
                                | _ => false
                                end) xs)
  | _ =>
      Raise (mkExn TypeError
               ("argument of type '" ++ type_name data
                  ++ "' is not iterable"))
  end.

(** [data[key]] for a string [key]. *)
Definition getitem (data : PyVal) (key : string) : Outcome PyVal :=
  match data with
  | PDict d =>
      match dict_get key d with
      | Some v => Return v
      | None => Raise (mkExn KeyError (repr_str key))
      end
  | PStr _ =>
      Raise (mkExn TypeError "string indices must be integers, not 'str'")
  | PList _ =>
      Raise (mkExn TypeError
               "list indices must be integers or slices, not str")
  | _ =>
      Raise (mkExn TypeError
               ("'" ++ type_name data ++ "' object is not subscriptable"))
  end.

(** [obj.get(key, default)]: only a [dict] has the method. *)
Definition get (obj : PyVal) (key : string) (default : PyVal)
  : Outcome PyVal :=
  match obj with
  | PDict d => Return (dict_get_default key default d)
  | _ =>
      Raise (mkExn AttributeError
               ("'" ++ type_name obj ++ "' object has no attribute 'get'"))
  end.

(** [data.items()]. *)
Definition items (data : PyVal) : Outcome dict :=
  match data with
  | PDict d => Return d
  | _ =>
      Raise (mkExn AttributeError
               ("'" ++ type_name data
                  ++ "' object has no attribute 'items'"))
  end.

(** The mapping unpacked by [{**data, ...}]. *)
Definition unpack_mapping (data : PyVal) : Outcome dict :=
  match data with
  | PDict d => Return d
  | _ =>
      Raise (mkExn TypeError
               ("'" ++ type_name data ++ "' object is not a mapping"))
  end.

(** [xs[0]] on the sequence a model returns. *)
Definition first (xs : list PyVal) : Outcome PyVal :=
  match xs with
  | x :: _ => Return x
  | [] => Raise (mkExn IndexError "list index out of range")
  end.

(** ** [json.dumps] with its default settings *)

Definition json_char (c : ascii) : string :=
  let n := Text.code c in
  if Ascii.eqb c Text.dquote then String Text.backslash (String c "")
  else if Ascii.eqb c Text.backslash then String Text.backslash (String c "")
  else if n =? 10 then String Text.backslash "n"
  else if n =? 13 then String Text.backslash "r"
  else if n =? 9 then String Text.backslash "t"
  else if n =? 8 then String Text.backslash "b"
  else if n =? 12 then String Text.backslash "f"
  else if (32 <=? n) && (n <=? 126) then String c ""
  else String Text.backslash ("u00" ++ Text.hex2 c).

Fixpoint json_chars (s : string) : string :=
  match s with
  | EmptyString => ""
  | String c rest => json_char c ++ json_chars rest
  end.

Definition json_str (s : string) : string :=
  String Text.dquote (json_chars s ++ String Text.dquote "").

Definition json_float (f : spec_float) : string :=
  match f with
  | S754_nan => "NaN"
  | S754_infinity s => if s then "-Infinity" else "Infinity"
  | _ => PyFloat.repr f
  end.

Fixpoint json_dumps (v : PyVal) : string :=
  match v with
  | PNone => "null"
  | PBool b => if b then "true" else "false"
  | PInt n => Text.of_Z n
  | PFloat f => json_float f
  | PStr s => json_str s
  | PList xs => "[" ++ Text.join ", " (map json_dumps xs) ++ "]"
  | PDict kvs =>
      "{" ++ Text.join ", "
               (map (fun kv => json_str (fst kv) ++ ": "
                                 ++ json_dumps (snd kv)) kvs)
          ++ "}"
  end.

End Py.

(* ===================================================================== *)
(** * The world behind boto3 and the clock *)
(* ===================================================================== *)

Module Cloud.
Import Py.

(** The fields of [datetime.now()] that the module formats. *)
Record datetime : Type := mkDatetime {
  year : Z; month : Z; day : Z; hour : Z; minute : Z
}.

(** [now.strftime("%d-%m-%Y %H:%M")]; the C library prints the year as
    it is and the other fields on two digits. *)
Definition strftime_timestamp (now : datetime) : string :=
  Text.zero_pad 2 (day now) ++ "-" ++ Text.zero_pad 2 (month now) ++ "-"
    ++ Text.of_Z (year now) ++ " "
    ++ Text.zero_pad 2 (hour now) ++ ":" ++ Text.zero_pad 2 (minute now).

(** [now.strftime("%Y-%m-%d")]. *)
Definition strftime_date (now : datetime) : string :=
  Text.of_Z (year now) ++ "-" ++ Text.zero_pad 2 (month now) ++ "-"
    ++ Text.zero_pad 2 (day now).

(** One entry of [MetricData] together with the [Namespace] of the call. *)
Record MetricCall : Type := mkMetricCall {
  Namespace : string;
  MetricName : string;
  Value : PyVal;
  Unit : string;
  Dimensions : list (string * string)
}.

(** What a request can observe and change: the objects of the S3 service
    by bucket and key, the [put_metric_data] calls accepted so far (oldest
    first), the wall clock, and the fate of the coming service calls: the
    n-th call from now fails with the n-th entry of [faults] when that is
    an exception, and is served otherwise. *)
Record World : Type := mkWorld {
  s3_objects : gmap (string * string) string;
  cw_calls : list MetricCall;
  clock : datetime;
  faults : list (option Exn)
}.

Definition with_objects (o : gmap (string * string) string) (w : World)
  : World :=
  mkWorld o (cw_calls w) (clock w) (faults w).

Definition with_calls (c : list MetricCall) (w : World) : World :=
  mkWorld (s3_objects w) c (clock w) (faults w).

Definition with_clock (t : datetime) (w : World) : World :=
  mkWorld (s3_objects w) (cw_calls w) t (faults w).

Definition with_faults (f : list (option Exn)) (w : World) : World :=
  mkWorld (s3_objects w) (cw_calls w) (clock w) f.

(** ** Computations that read and change the world and may raise *)

Definition M (A : Type) : Type := World -> Outcome A * World.

Definition ret {A} (a : A) : M A := fun w => (Return a, w).
Definition raise {A} (e : Exn) : M A := fun w => (Raise e, w).

Definition bind {A B} (m : M A) (k : A -> M B) : M B :=
  fun w =>
    match m w with
    | (Return a, w') => k a w'
    | (Raise e, w') => (Raise e, w')
    end.

(** A pure computation that may raise. *)
Definition lift {A} (x : Outcome A) : M A := fun w => (x, w).

(** [try: m  except <classes>: h], where [catches] tells which exceptions
    the clause names. *)
Definition try_except {A} (m : M A) (catches : Exn -> bool) (h : M A)
  : M A :=
  fun w =>
    match m w with
    | (Raise e, w') => if catches e then h w' else (Raise e, w')
    | r => r
    end.

Definition is_no_such_key (e : Exn) : bool :=
  match exn_class e with NoSuchKey => true | _ => false end.

Fixpoint for_each {A} (xs : list A) (body : A -> M unit) : M unit :=
  match xs with
  | [] => ret tt
  | x :: rest => bind (body x) (fun _ => for_each rest body)
  end.

(** ** Service calls *)

(** The fate of the next service call, and the world once that call has
    been answered. *)
Definition next_fault (w : World) : option Exn :=
  match faults w with
  | Some e :: _ => Some e
  | _ => None
  end.

Definition consume (w : World) : World := with_faults (tl (faults w)) w.

(** A call to a service fails as [faults] says, and is served otherwise. *)
Definition service_call {A} (served : M A) : M A :=
  fun w =>
    match next_fault w with
    | Some e => (Raise e, consume w)
    | None => served (consume w)
    end.

Definition no_such_key : Exn :=
  mkExn NoSuchKey
    ("An error occurred (NoSuchKey) when calling the GetObject operation: "
       ++ "The specified key does not exist.").

(** [s3_client.get_object(Bucket=, Key=)["Body"].read().decode("utf-8")]. *)
Definition get_object (bucket key : string) : M string :=
  service_call (fun w =>
    match s3_objects w !! (bucket, key) with
    | Some body => (Return body, w)
    | None => (Raise no_such_key, w)
    end).

(** [s3_client.put_object(Body=, Bucket=, Key=)]. *)
Definition put_object (body bucket key : string) : M unit :=
  service_call (fun w =>
    (Return tt, with_objects (<[(bucket, key) := body]> (s3_objects w)) w)).

(** [cloudwatch_client.put_metric_data(MetricData=[...], Namespace=)]
    with one entry. *)
Definition put_metric_data (call : MetricCall) : M unit :=
  service_call (fun w =>
    (Return tt, with_calls (cw_calls w ++ [call])%list w)).

(** [datetime.now()]. *)
Definition datetime_now : M datetime := fun w => (Return (clock w), w).

(** Time passing between two steps of a schedule. *)
Definition set_clock (t : datetime) : M unit :=
  fun w => (Return tt, with_clock t w).

End Cloud.

Declare Scope py_scope.
Delimit Scope py_scope with py.
Notation "x <- m ;; k" := (Cloud.bind m (fun x => k))
  (at level 100, m at next level, right associativity) : py_scope.
Notation "m ;;; k" := (Cloud.bind m (fun _ => k))
  (at level 100, right associativity) : py_scope.

(* ===================================================================== *)
(** * The module [src/app.py] *)
(* ===================================================================== *)

Module App.
Import Py Cloud.
Local Open Scope py_scope.

Definition BUCKET_NAME : string := "fiap-10dtsr-mlops-trabalho-final".
Definition S3_PREFIX : string := "credit-score-real-data".

Definition MODEL_NAMESPACE : string := "CreditScoreModel".
Definition FEATURES_NAMESPACE : string := "CreditScoreFeatures".

Definition FEATURE_ORDER : list string :=
  [ "Age";
    "Annual_Income";
    "Num_Bank_Accounts";
    "Num_Credit_Card";
    "Num_of_Delayed_Payment";
    "Credit_Utilization_Ratio";
    "Payment_of_Min_Amount";
    "Total_EMI_per_month";
    "Credit_History_Age_Formated";
    "Auto_Loan";
    "Credit-Builder_Loan";
    "Personal_Loan";
    "Home_Equity_Loan";
    "Mortgage_Loan";
    "Student_Loan";
    "Debt_Consolidation_Loan";
    "Payday_Loan";
    "Missed_Payment_Day" ].

(** [_normalise_value(value)]. *)
Definition _normalise_value (value : PyVal) : Outcome PyVal :=
  match value with
  | PStr s =>
      if Text.contains "." s
      then obind (float_of_str s) (fun f => Return (PFloat f))
      else obind (int_of_str s) (fun n => Return (PInt n))
  | _ => Return value
  end.

Definition missing_feature (key : string) : Exn :=
  mkExn ValueError ("Feature '" ++ key ++ "' missing from payload.").

(** The [for key in ...] loop of [prepare_payload], started with the keys
    still to visit and the list [processed] built so far. *)
Fixpoint prepare_loop (keys : list string) (data : PyVal)
    (processed : list PyVal) : Outcome (list PyVal) :=
  match keys with
  | [] => Return processed
  | key :: rest =>
      obind (contains key data) (fun present =>
        if negb present then Raise (missing_feature key)
        else
          obind (getitem data key) (fun v =>
          obind (_normalise_value v) (fun x =>
            prepare_loop rest data (processed ++ [x])%list)))
  end.

(** [prepare_payload(data)]. *)
Definition prepare_payload (data : PyVal) : Outcome (list PyVal) :=
  prepare_loop FEATURE_ORDER data [].

(** What [prepare_payload] appends for one key: the coerced value of the
    record's entry, or the missing-feature error. *)
Definition feature_value (d : dict) (key : string) : Outcome PyVal :=
  match dict_get key d with
  | Some v => _normalise_value v
  | None => Raise (missing_feature key)
  end.

(** The record has an entry for every key of [keys]. *)
Definition has_features (keys : list string) (d : dict) : bool :=
  forallb (fun key => dict_has key d) keys.

(** Every entry of the record under a key of [keys] can be coerced. *)
Definition coercible (keys : list string) (d : dict) : bool :=
  forallb (fun key =>
             match dict_get key d with
             | Some v => returns (_normalise_value v)
             | None => true
             end) keys.

(** The response dictionary of [handler]. *)
Record Response : Type := mkResponse {
  statusCode : Z;
  headers : list (string * string);
  body : string
}.

Definition json_headers : list (string * string) :=
  [("Content-Type", "application/json")].

(** [publish_metrics(data, prediction)]. *)
Definition publish_metrics (data : PyVal) (prediction : spec_float)
  : M unit :=
  put_metric_data
    (mkMetricCall MODEL_NAMESPACE "CreditScorePrediction"
                  (PFloat prediction) "None" []) ;;;
  kvs <- lift (items data) ;;
  for_each kvs (fun kv =>
    put_metric_data
      (mkMetricCall FEATURES_NAMESPACE (fst kv) (PInt 1) "Count"
                    [("Value", str (snd kv))])).

(** The record that goes to the log: the entries of [d], then the three
    derived fields, each taking the place of an entry of the same name. *)
Definition enriched_record (d : dict) (prediction : spec_float)
    (timestamp : string) (version : PyVal) : dict :=
  dict_set "model_version" version
    (dict_set "timestamp" (PStr timestamp)
       (dict_set "credit_score_prediction" (PFloat prediction) d)).

Section Service.

(** The objects loaded at cold start and the JSON decoder of the runtime:
    [MODEL.predict], applied to a list of feature vectors, yields a
    sequence of scores or raises; [MODEL_INFO] is the decoded metadata
    file; [json_decode] is [json.loads] on a string. *)
Variable MODEL_predict : list (list PyVal) -> Outcome (list PyVal).
Variable MODEL_INFO : dict.
Variable json_decode : string -> Outcome PyVal.

(** [json.loads(v)]. *)
Definition json_loads (v : PyVal) : Outcome PyVal :=
  match v with
  | PStr s => json_decode s
  | _ =>
      Raise (mkExn TypeError
               ("the JSON object must be str, bytes or bytearray, not "
                  ++ type_name v))
  end.

(** The dictionary display [{**data, "credit_score_prediction": ...,
    "timestamp": ..., "model_version": MODEL_INFO["version"]}]. *)
Definition enrich (data : PyVal) (prediction : spec_float)
    (timestamp : string) : Outcome dict :=
  obind (unpack_mapping data) (fun d =>
  obind (getitem (PDict MODEL_INFO) "version") (fun version =>
    Return (enriched_record d prediction timestamp version))).

Definition log_key (now : datetime) : string :=
  S3_PREFIX ++ "/" ++ strftime_date now
    ++ "_credit_score_prediction_data.csv".

Definition csv_header (enriched : dict) : string :=
  Text.join "," (dict_keys enriched).

Definition csv_row (enriched : dict) : string :=
  Text.join "," (map str (dict_values enriched)).

(** The [try] block of [write_real_data_to_s3] with its [except] clause:
    header and rows of the existing log, or a fresh header and no row. *)
Definition fetch_log (key : string) (enriched : dict)
  : M (string * list string) :=
  try_except
    (existing <- get_object BUCKET_NAME key ;;
     match Text.splitlines existing with
     | [] => raise (mkExn ValueError "Empty file retrieved from S3")
     | header :: rows => ret (header, rows)
     end)
    is_no_such_key
    (ret (csv_header enriched, [])).

(** What the [try] statement yields when the store answers: the header
    and the rows of the log [found], or a header of the record's own and
    no row. *)
Inductive PriorLog (found : option string) (enriched : dict)
  : string -> list string -> Prop :=
| prior_existing (existing header : string) (rows : list string) :
    found = Some existing ->
    Text.splitlines existing = header :: rows ->
    PriorLog found enriched header rows
| prior_absent :
    found = None -> PriorLog found enriched (csv_header enriched) [].

(** [write_real_data_to_s3(data, prediction)]. *)
Definition write_real_data_to_s3 (data : PyVal) (prediction : spec_float)
  : M unit :=
  now <- datetime_now ;;
  let timestamp := strftime_timestamp now in
  let key := log_key now in
  enriched <- lift (enrich data prediction timestamp) ;;
  hr <- fetch_log key enriched ;;
  let rows := (snd hr ++ [csv_row enriched])%list in
  let content := Text.join Text.newline (fst hr :: rows) in
  put_object content BUCKET_NAME key.

(** The [try] block of [handler]. *)
Definition predict (payload : PyVal) : Outcome spec_float :=
  obind (prepare_payload payload) (fun features =>
  obind (MODEL_predict [features]) (fun scores =>
  obind (first scores) float)).

(** The envelope: [json.loads(event.get("body", "{}")).get("data", {})]
    for an event with a ["body"], [event.get("data", {})] otherwise. *)
Definition extract_payload (event : dict) : Outcome PyVal :=
  if dict_has "body" event then
    obind (json_loads (dict_get_default "body" (PStr "{}") event))
          (fun decoded => get decoded "data" (PDict []))
  else Return (dict_get_default "data" (PDict []) event).

Definition error_response (exc : Exn) : Response :=
  mkResponse 400 json_headers
             (json_dumps (PDict [("error", PStr (exn_str exc))])).

Definition success_response (prediction : spec_float) (version : PyVal)
  : Response :=
  mkResponse 200 json_headers
             (json_dumps (PDict [("prediction", PFloat prediction);
                                 ("version", version)])).

(** [handler(event, context)]. *)
Definition handler (event : dict) : M Response :=
  payload <- lift (extract_payload event) ;;
  match predict payload with
  | Raise exc => ret (error_response exc)
  | Return prediction =>
      publish_metrics payload prediction ;;;
      write_real_data_to_s3 payload prediction ;;;
      version <- lift (getitem (PDict MODEL_INFO) "version") ;;
      ret (success_response prediction version)
  end.

(** ** [write_real_data_to_s3] in two steps

    The function reaches the store twice, with [get_object] and with
    [put_object]; another request may run between the two.  [append_begin]
    is the function up to the end of its [try] statement, [append_commit]
    is the rest, and a schedule of two requests A and B interleaves these
    steps. *)

Definition Fetched : Type := (string * dict * (string * list string))%type.

Definition append_begin (data : PyVal) (prediction : spec_float)
  : M Fetched :=
  now <- datetime_now ;;
  let timestamp := strftime_timestamp now in
  let key := log_key now in
  enriched <- lift (enrich data prediction timestamp) ;;
  hr <- fetch_log key enriched ;;
  ret (key, enriched, hr).

Definition append_commit (st : Fetched) : M unit :=
  let '(key, enriched, hr) := st in
  let rows := (snd hr ++ [csv_row enriched])%list in
  let content := Text.join Text.newline (fst hr :: rows) in
  put_object content BUCKET_NAME key.

(** A and B both fetch, then A writes, then B writes; the clock reads [t]
    when B starts. *)
Definition racing_appends (dataA : PyVal) (predA : spec_float)
    (dataB : PyVal) (predB : spec_float) (t : datetime) : M unit :=
  a <- append_begin dataA predA ;;
  set_clock t ;;;
  b <- append_begin dataB predB ;;
  append_commit a ;;;
  append_commit b.

End Service.

End App.

(* ===================================================================== *)
(** * Sample data *)
(* ===================================================================== *)

Module Examples.
Import Py Cloud App.

Definition q : string := String Text.dquote "".

(** 43391.96, 29.112467941684688 and 1.5 as binary64 numbers. *)
Definition f_43391_96 : spec_float := S754_finite false 5963745571498885 (-37).
Definition f_29_11 : spec_float := S754_finite false 8194431235875417 (-48).
Definition f_1_5 : spec_float := S754_finite false 6755399441055744 (-52).

(** The payload of [tests/app_test.py]. *)
Definition reference_payload : dict :=
  [ ("Age", PInt 30);
    ("Annual_Income", PFloat f_43391_96);
    ("Num_Bank_Accounts", PInt 1);
    ("Num_Credit_Card", PInt 5);
    ("Num_of_Delayed_Payment", PInt 6);
    ("Credit_Utilization_Ratio", PFloat f_29_11);
    ("Payment_of_Min_Amount", PInt 0);
    ("Total_EMI_per_month", PFloat (S754_zero false));
    ("Credit_History_Age_Formated", PInt 284);
    ("Auto_Loan", PInt 0);
    ("Credit-Builder_Loan", PInt 0);
    ("Personal_Loan", PInt 0);
    ("Home_Equity_Loan", PInt 0);
    ("Mortgage_Loan", PInt 0);
    ("Student_Loan", PInt 0);
    ("Debt_Consolidation_Loan", PInt 0);
    ("Payday_Loan", PInt 0);
    ("Missed_Payment_Day", PInt 1) ].

(** The same record sent as strings, in another key order. *)
Definition textual_payload : dict :=
  [ ("Missed_Payment_Day", PStr "1");
    ("Payday_Loan", PStr "0");
    ("Debt_Consolidation_Loan", PStr "0");
    ("Student_Loan", PStr "0");
    ("Mortgage_Loan", PStr "0");
    ("Home_Equity_Loan", PStr "0");
    ("Personal_Loan", PStr "0");
    ("Credit-Builder_Loan", PStr "0");
    ("Auto_Loan", PStr "0");
    ("Credit_History_Age_Formated", PStr "284");
    ("Total_EMI_per_month", PStr "0.0");
    ("Payment_of_Min_Amount", PStr "0");
    ("Credit_Utilization_Ratio", PStr "29.112467941684688");
    ("Num_of_Delayed_Payment", PStr "6");
    ("Num_Credit_Card", PStr "5");
    ("Num_Bank_Accounts", PStr "1");
    ("Annual_Income", PStr "43391.96");
    ("Age", PStr "30") ].

(** The reference payload with an age that is no number. *)
Definition bad_age_payload : dict :=
  dict_set "Age" (PStr "abc") reference_payload.

(** A record with an unreadable age and nothing else. *)
Definition only_bad_age : dict := [("Age", PStr "abc")].

(** The reference payload with a free-text field that spans two lines. *)
Definition two_line_payload : dict :=
  (reference_payload
     ++ [("note", PStr ("a" ++ Text.newline ++ "b"))])%list.

(** A model that scores every applicant 1.5, and its metadata. *)
Definition sample_model (X : list (list PyVal)) : Outcome (list PyVal) :=
  Return (map (fun _ => PFloat f_1_5) X).
Definition sample_info : dict := [("version", PStr "1.0")].

(** A decoder that knows one document and rejects every other text. *)
Definition sample_body : string :=
  "{" ++ q ++ "data" ++ q ++ ": {}}".
Definition sample_decode (s : string) : Outcome PyVal :=
  if String.eqb s sample_body then Return (PDict [("data", PDict [])])
  else Raise (mkExn JSONDecodeError
                "Expecting value: line 1 column 1 (char 0)").

Definition morning : datetime := mkDatetime 2026 11 4 9 5.
Definition noon : datetime := mkDatetime 2026 11 4 12 0.
Definition today_key : string := log_key morning.

Definition fresh_world : World := mkWorld ∅ [] morning [].

(** A day on which one row has been logged already. *)
Definition old_log : string := "h" ++ Text.newline ++ "r1".
Definition logged_world : World :=
  mkWorld {[ (BUCKET_NAME, today_key) := old_log ]} [] morning [].

(** A day whose log object exists and is empty. *)
Definition empty_log_world : World :=
  mkWorld {[ (BUCKET_NAME, today_key) := "" ]} [] morning [].

(** A day on which CloudWatch turns the next call down. *)
Definition throttled : Exn :=
  mkExn ClientError
    ("An error occurred (Throttling) when calling the PutMetricData "
       ++ "operation: Rate exceeded").
Definition throttled_world : World :=
  mkWorld ∅ [] morning [Some throttled].

Definition direct_event (d : dict) : dict := [("data", PDict d)].

(** Header and row that the reference payload leaves in the log when the
    score is 1.5. *)
Definition reference_header : string :=
  "Age,Annual_Income,Num_Bank_Accounts,Num_Credit_Card,"
    ++ "Num_of_Delayed_Payment,Credit_Utilization_Ratio,"
    ++ "Payment_of_Min_Amount,Total_EMI_per_month,"
    ++ "Credit_History_Age_Formated,Auto_Loan,Credit-Builder_Loan,"
    ++ "Personal_Loan,Home_Equity_Loan,Mortgage_Loan,Student_Loan,"
    ++ "Debt_Consolidation_Loan,Payday_Loan,Missed_Payment_Day,"
    ++ "credit_score_prediction,timestamp,model_version".
Definition reference_values : string :=
  "30,43391.96,1,5,6,29.112467941684688,0,0.0,284,0,0,0,0,0,0,0,0,1".
Definition reference_row : string :=
  reference_values ++ ",1.5,04-11-2026 09:05,1.0".

End Examples.

(* ===================================================================== *)
(** * Vocabulary of the statements about the side effects *)
(* ===================================================================== *)

Module Expected.
Import Py Cloud App.

(** The two kinds of entries that [publish_metrics] sends. *)
Definition prediction_metric (prediction : spec_float) : MetricCall :=
  mkMetricCall MODEL_NAMESPACE "CreditScorePrediction" (PFloat prediction)
               "None" [].

Definition feature_metric (kv : string * PyVal) : MetricCall :=
  mkMetricCall FEATURES_NAMESPACE (fst kv) (PInt 1) "Count"
               [("Value", str (snd kv))].

(** All the entries for one request, in the order of the calls. *)
Definition metrics_of (d : dict) (prediction : spec_float)
  : list MetricCall :=
  prediction_metric prediction :: map feature_metric d.

(** The next [n] service calls will be served. *)
Definition all_served (n : nat) (w : World) : bool :=
  forallb (fun f => match f with None => true | Some _ => false end)
          (firstn n (faults w)).

(** The three derived fields of the enriched record. *)
Definition derived_keys : list string :=
  ["credit_score_prediction"; "timestamp"; "model_version"].

(** A day on which the store refuses to be read, after [n] calls that are
    served. *)
Definition access_denied : Exn :=
  mkExn ClientError
    ("An error occurred (AccessDenied) when calling the GetObject "
       ++ "operation: Access Denied").
Definition denied_after (n : nat) : World :=
  mkWorld ∅ [] Examples.morning (repeat None n ++ [Some access_denied])%list.

(** A decoder that knows the empty array and rejects every other text. *)
Definition array_decode (s : string) : Outcome PyVal :=
  if String.eqb s "[]" then Return (PList [])
  else Raise (mkExn JSONDecodeError
                "Expecting value: line 1 column 1 (char 0)").

(** A model that has nothing to say, and one that fails. *)
Definition silent_model (X : list (list PyVal)) : Outcome (list PyVal) :=
  Return [].
Definition broken_model (X : list (list PyVal)) : Outcome (list PyVal) :=
  Raise (mkExn ValueError "X has 18 features, but the model expects 17").

End Expected.

(* ===================================================================== *)
(** * Facts about text *)
(* ===================================================================== *)

Module TextFacts.
Import Text.

Lemma contains_char (c : ascii) (s : string) :
  contains (String c "") s = has_char (Ascii.eqb c) s.
Proof.
  induction s as [|a s IH]; simpl.
  - reflexivity.
  - rewrite IH. destruct (ascii_dec c a) as [->|Hne].
    + rewrite Ascii.eqb_refl. now destruct s.
    + apply Ascii.eqb_neq in Hne. now rewrite Hne.
Qed.

Lemma append_assoc (s t u : string) : (s ++ t) ++ u = s ++ t ++ u.
Proof.
  induction s as [|c s IH]; [reflexivity|].
  change (String c ((s ++ t) ++ u) = String c (s ++ t ++ u)).
  now rewrite IH.
Qed.

Lemma has_char_app (p : ascii -> bool) (s t : string) :
  has_char p (s ++ t) = has_char p s || has_char p t.
Proof.
  induction s as [|a s IH]; simpl; [reflexivity|].
  now rewrite IH, orb_assoc.
Qed.

Lemma break_free_app (s t : string) :
  break_free (s ++ t) <-> break_free s /\ break_free t.
Proof. unfold break_free. rewrite has_char_app. apply orb_false_iff. Qed.

Lemma break_free_cons (c : ascii) (s : string) :
  break_free (String c s) <-> is_linebreak c = false /\ break_free s.
Proof. unfold break_free. simpl. apply orb_false_iff. Qed.

Lemma newline_is_break : is_linebreak LF = true.
Proof. reflexivity. Qed.

(** A line without boundary, followed by a newline, is the first line of
    the text, and the rest is split on its own. *)
Lemma splitlines_line (l s : string) :
  break_free l -> splitlines (l ++ newline ++ s) = l :: splitlines s.
Proof.
  induction l as [|c l IH]; intros Hl.
  - simpl. now destruct s.
  - apply break_free_cons in Hl as [Hc Hl].
    change (String c l ++ newline ++ s) with (String c (l ++ newline ++ s)).
    cbn [splitlines]. rewrite Hc, (IH Hl). reflexivity.
Qed.

Lemma splitlines_single (l : string) :
  break_free l -> l <> "" -> splitlines l = [l].
Proof.
  induction l as [|c l IH]; intros Hl Hne; [congruence|].
  apply break_free_cons in Hl as [Hc Hl].
  cbn [splitlines]. rewrite Hc.
  destruct l as [|c' l'].
  - reflexivity.
  - rewrite IH; [reflexivity | assumption | discriminate].
Qed.

Lemma splitlines_empty_iff (s : string) : splitlines s = [] <-> s = "".
Proof.
  split; [|intros ->; reflexivity].
  destruct s as [|c s]; [reflexivity|].
  cbn [splitlines]. destruct (is_linebreak c); [discriminate|].
  destruct (splitlines s); discriminate.
Qed.

(** The lines of a text hold no line boundary. *)
Lemma splitlines_break_free (s : string) :
  Forall break_free (splitlines s).
Proof.
  assert (H : forall n s, (String.length s <= n)%nat ->
                          Forall break_free (splitlines s)).
  { clear s. induction n as [|n IH]; intros s Hn.
    - destruct s; [constructor | simpl in Hn; lia].
    - destruct s as [|c s]; [constructor|].
      simpl in Hn. cbn [splitlines].
      destruct (is_linebreak c) eqn:Hc.
      + constructor; [reflexivity|].
        destruct s as [|c' s']; [constructor|].
        simpl in Hn.
        destruct (Ascii.eqb c CR && Ascii.eqb c' LF); apply IH; simpl; lia.
      + assert (Hs : Forall break_free (splitlines s)) by (apply IH; lia).
        destruct (splitlines s) as [|l ls].
        * constructor; [|constructor]. apply break_free_cons. now split.
        * inversion Hs; subst. constructor; [|assumption].
          apply break_free_cons. now split. }
  apply (H (String.length s)). lia.
Qed.

Lemma join_cons (sep x y : string) (rest : list string) :
  join sep (x :: y :: rest) = x ++ sep ++ join sep (y :: rest).
Proof. reflexivity. Qed.

(** Joining boundary-free lines with newlines and splitting again gives
    the lines back, whatever the last chunk is. *)
Lemma splitlines_join_snoc (ls : list string) (x : string) :
  Forall break_free ls ->
  splitlines (join newline (ls ++ [x])) = (ls ++ splitlines x)%list.
Proof.
  induction ls as [|l ls IH]; intros Hls.
  - reflexivity.
  - inversion Hls as [|? ? Hl Hrest]; subst.
    change ((l :: ls) ++ [x])%list with (l :: (ls ++ [x]))%list.
    destruct (ls ++ [x])%list as [|y rest] eqn:E.
    + now destruct ls.
    + rewrite join_cons, splitlines_line by assumption.
      now rewrite (IH Hrest).
Qed.

Lemma join_length_2 (sep : string) (parts : list string) :
  sep <> "" -> (2 <= List.length parts)%nat -> join sep parts <> "".
Proof.
  intros Hsep Hlen.
  destruct parts as [|x [|y rest]]; simpl in Hlen; try lia.
  rewrite join_cons. destruct x; simpl; [|discriminate].
  destruct sep; [congruence | discriminate].
Qed.

End TextFacts.

(* ===================================================================== *)
(** * Facts about dictionaries and [traverse] *)
(* ===================================================================== *)

Module PyFacts.
Import Py.

Lemma dict_get_cons (k k' : string) (v : PyVal) (d : dict) :
  dict_get k ((k', v) :: d) = if String.eqb k k' then Some v else dict_get k d.
Proof. unfold dict_get. simpl. now destruct (String.eqb k k'). Qed.

Lemma dict_has_cons (k k' : string) (v : PyVal) (d : dict) :
  dict_has k ((k', v) :: d) = String.eqb k k' || dict_has k d.
Proof. reflexivity. Qed.

Lemma dict_has_get (k : string) (d : dict) :
  dict_has k d = match dict_get k d with Some _ => true | None => false end.
Proof.
  induction d as [|[k' v] d IH]; [reflexivity|].
  rewrite dict_has_cons, dict_get_cons, IH.
  now destruct (String.eqb k k').
Qed.

Lemma dict_has_true (k : string) (d : dict) :
  dict_has k d = true -> exists v, dict_get k d = Some v.
Proof.
  rewrite dict_has_get. destruct (dict_get k d) as [v|]; [eauto|discriminate].
Qed.

Lemma dict_has_false (k : string) (d : dict) :
  dict_has k d = false -> dict_get k d = None.
Proof.
  rewrite dict_has_get. now destruct (dict_get k d).
Qed.

Lemma dict_get_not_key (k : string) (d : dict) :
  ~ In k (dict_keys d) -> dict_get k d = None.
Proof.
  induction d as [|[k' v] d IH]; intros Hn; [reflexivity|].
  rewrite dict_get_cons. simpl in Hn.
  destruct (String.eqb_spec k k') as [->|Hne]; [tauto|].
  apply IH. tauto.
Qed.

(** Reordering the entries of a dictionary changes no lookup. *)
Lemma dict_get_permutation (d d' : dict) :
  List.NoDup (dict_keys d) -> Permutation d d' ->
  forall k, dict_get k d' = dict_get k d.
Proof.
  unfold dict_keys. intros Hnd Hp. induction Hp as [|[k0 v0] l l' Hp IH
                                  |[k1 v1] [k2 v2] l
                                  |l l' l'' Hp1 IH1 Hp2 IH2]; intros k.
  - reflexivity.
  - rewrite !dict_get_cons. simpl in Hnd. inversion Hnd; subst.
    now rewrite IH.
  - rewrite !dict_get_cons.
    destruct (String.eqb_spec k k1) as [->|]; [|reflexivity].
    destruct (String.eqb_spec k1 k2) as [->|]; [|reflexivity].
    simpl in Hnd. inversion Hnd as [|? ? Hin _]; subst. simpl in Hin. tauto.
  - rewrite IH2, IH1; [reflexivity | assumption |].
    eapply Permutation_NoDup; [|exact Hnd].
    now apply Permutation_map.
Qed.

Lemma dict_has_set_same (k : string) (v : PyVal) (d : dict) :
  dict_has k (dict_set k v d) = true.
Proof.
  induction d as [|[k' v'] d IH]; simpl.
  - now rewrite String.eqb_refl.
  - destruct (String.eqb k k') eqn:E; simpl.
    + now rewrite String.eqb_refl.
    + now rewrite E.
Qed.

Lemma dict_has_set_keep (k k' : string) (v : PyVal) (d : dict) :
  dict_has k' d = true -> dict_has k' (dict_set k v d) = true.
Proof.
  induction d as [|[k0 v0] d IH]; simpl; [discriminate|].
  intros H. destruct (String.eqb k k0) eqn:E; simpl.
  - apply String.eqb_eq in E. subst. exact H.
  - destruct (String.eqb k' k0); simpl in *; auto.
Qed.

Lemma dict_two_keys (a b : string) (d : dict) :
  a <> b -> dict_has a d = true -> dict_has b d = true ->
  (2 <= List.length d)%nat.
Proof.
  intros Hne Ha Hb. destruct d as [|[k v] [|kv d]]; simpl in *;
    try discriminate; try lia.
  rewrite orb_false_r in Ha, Hb.
  apply String.eqb_eq in Ha, Hb. congruence.
Qed.

(** ** [traverse] *)

Lemma traverse_returns {A B} (f : A -> Outcome B) (xs : list A) :
  forallb (fun x => returns (f x)) xs = true ->
  exists ys, traverse f xs = Return ys.
Proof.
  induction xs as [|x xs IH]; simpl; intros H; [eauto|].
  apply andb_true_iff in H as [Hx Hxs].
  destruct (f x) as [y|]; [|discriminate].
  destruct (IH Hxs) as [ys ->]. simpl. eauto.
Qed.

Lemma traverse_nth {A B} (f : A -> Outcome B) (xs : list A) (ys : list B) :
  traverse f xs = Return ys ->
  List.length ys = List.length xs
  /\ forall i x, nth_error xs i = Some x ->
       exists y, f x = Return y /\ nth_error ys i = Some y.
Proof.
  revert ys. induction xs as [|x xs IH]; simpl; intros ys H.
  - inversion H; subst. split; [reflexivity|]. intros [|i] ?; discriminate.
  - destruct (f x) as [y|] eqn:Hfx; [|discriminate]. simpl in H.
    destruct (traverse f xs) as [ys'|]; [|discriminate].
    inversion H; subst. destruct (IH ys' eq_refl) as [Hlen Hnth].
    split; [simpl; now rewrite Hlen|].
    intros [|i] x0 Hx0; simpl in Hx0.
    + inversion Hx0; subst. eauto.
    + apply (Hnth i x0 Hx0).
Qed.

Lemma traverse_ext {A B} (f g : A -> Outcome B) (xs : list A) :
  (forall x, In x xs -> f x = g x) -> traverse f xs = traverse g xs.
Proof.
  induction xs as [|x xs IH]; intros H; [reflexivity|].
  simpl. rewrite (H x (or_introl eq_refl)), IH; [reflexivity|].
  intros y Hy. apply H. now right.
Qed.

(** The first failing element decides the exception. *)
Lemma traverse_raises {A B} (f : A -> Outcome B) (pre post : list A)
    (x : A) (e : Exn) :
  forallb (fun a => returns (f a)) pre = true -> f x = Raise e ->
  traverse f (pre ++ x :: post) = Raise e.
Proof.
  induction pre as [|a pre IH]; simpl; intros Hpre Hx.
  - now rewrite Hx.
  - apply andb_true_iff in Hpre as [Ha Hpre].
    destruct (f a); [|discriminate]. simpl. now rewrite IH.
Qed.

End PyFacts.

(* ===================================================================== *)
(** * The feature normaliser: [_normalise_value] and [prepare_payload] *)
(* ===================================================================== *)

Module Normalizer.
Import Py App Examples PyFacts.

(** C2.  The coercion of one value: a string with a [.] in it goes
    through [float], any other string through [int], and a value that is
    no string comes back as it is.  The string [30] becomes the integer
    30; the string [43391.96] becomes the binary64 number
    5963745571498885 * 2^-37, which lies within half a unit in the last
    place of 43391.96 and has a 53-bit significand. *)
Theorem normalise_value_spec :
  (forall s, Text.has_char (Ascii.eqb ".") s = true ->
     _normalise_value (PStr s)
     = obind (float_of_str s) (fun f => Return (PFloat f)))
  /\ (forall s, Text.has_char (Ascii.eqb ".") s = false ->
        _normalise_value (PStr s)
        = obind (int_of_str s) (fun n => Return (PInt n)))
  /\ (forall v, (forall s, v <> PStr s) -> _normalise_value v = Return v)
  /\ _normalise_value (PStr "30") = Return (PInt 30)
  /\ _normalise_value (PStr "43391.96") = Return (PFloat f_43391_96)
  /\ f_43391_96 = S754_finite false 5963745571498885 (-37)
  /\ 2 * Z.abs (5963745571498885 * 100 - 4339196 * 2 ^ 37) <= 100
  /\ 2 ^ 52 <= 5963745571498885 < 2 ^ 53.
Proof.
  repeat apply conj.
  - intros s Hs. unfold _normalise_value.
    now rewrite TextFacts.contains_char, Hs.
  - intros s Hs. unfold _normalise_value.
    now rewrite TextFacts.contains_char, Hs.
  - intros v Hv. destruct v; try reflexivity. now destruct (Hv s).
  - vm_compute. reflexivity.
  - vm_compute. reflexivity.
  - reflexivity.
  - vm_compute. discriminate.
  - vm_compute. discriminate.
  - vm_compute. reflexivity.
Qed.

(** [normalise_value_spec] at the strings [1.5], [7] and at [None]. *)
Lemma normalise_value_spec_witness :
  _normalise_value (PStr "1.5") = Return (PFloat f_1_5)
  /\ _normalise_value (PStr "7") = Return (PInt 7)
  /\ _normalise_value PNone = Return PNone.
Proof.
  destruct normalise_value_spec as (Hf & Hi & Hv & _).
  split; [|split].
  - rewrite Hf; reflexivity.
  - rewrite Hi; reflexivity.
  - apply Hv. discriminate.
Defined.

(** The loop of [prepare_payload] over a dictionary is a traversal of the
    keys with [feature_value]. *)
Lemma prepare_loop_traverse (keys : list string) (d : dict)
    (processed : list PyVal) :
  prepare_loop keys (PDict d) processed
  = obind (traverse (feature_value d) keys)
          (fun xs => Return (processed ++ xs)%list).
Proof.
  revert processed. induction keys as [|key keys IH]; intros processed.
  - simpl. now rewrite app_nil_r.
  - cbn [prepare_loop traverse contains obind].
    rewrite dict_has_get. unfold feature_value at 1.
    cbn [getitem]. destruct (dict_get key d) as [v|]; [|reflexivity].
    cbn [negb obind]. destruct (_normalise_value v) as [x|]; [|reflexivity].
    cbn [obind]. rewrite IH.
    destruct (traverse (feature_value d) keys); [|reflexivity].
    cbn [obind]. now rewrite <- app_assoc.
Qed.

Lemma prepare_payload_traverse (d : dict) :
  prepare_payload (PDict d) = traverse (feature_value d) FEATURE_ORDER.
Proof.
  unfold prepare_payload. rewrite prepare_loop_traverse.
  now destruct (traverse (feature_value d) FEATURE_ORDER).
Qed.

Lemma feature_values_return (keys : list string) (d : dict) :
  has_features keys d = true -> coercible keys d = true ->
  forallb (fun key => returns (feature_value d key)) keys = true.
Proof.
  unfold has_features, coercible, feature_value.
  induction keys as [|key keys IH]; simpl; [reflexivity|].
  intros Hh Hc.
  apply andb_true_iff in Hh as [Hk Hh], Hc as [Hv Hc].
  rewrite IH by assumption. rewrite dict_has_get in Hk.
  destruct (dict_get key d); [now rewrite Hv | discriminate].
Qed.

(** C1, amended.  For a record that has all 18 keys of [FEATURE_ORDER]
    with values that coerce, [prepare_payload] returns a vector as long as
    [FEATURE_ORDER] whose i-th entry is the coercion of the record's
    value for the i-th key, and it returns the same vector for every
    reordering of the record's entries. *)
Theorem prepare_payload_ordered (d : dict) :
  has_features FEATURE_ORDER d = true ->
  coercible FEATURE_ORDER d = true ->
  exists vec,
    prepare_payload (PDict d) = Return vec
    /\ List.length vec = List.length FEATURE_ORDER
    /\ List.length vec = 18%nat
    /\ (forall i key, nth_error FEATURE_ORDER i = Some key ->
          exists v x, dict_get key d = Some v
                      /\ _normalise_value v = Return x
                      /\ nth_error vec i = Some x)
    /\ (forall d', List.NoDup (dict_keys d) -> Permutation d d' ->
          prepare_payload (PDict d') = Return vec).
Proof.
  intros Hh Hc.
  destruct (traverse_returns _ _ (feature_values_return _ _ Hh Hc))
    as [vec Hvec].
  exists vec. rewrite prepare_payload_traverse.
  destruct (traverse_nth _ _ _ Hvec) as [Hlen Hnth].
  repeat apply conj; try assumption.
  - intros i key Hi. destruct (Hnth i key Hi) as (x & Hx & Hix).
    unfold feature_value in Hx.
    destruct (dict_get key d) as [v|]; [|discriminate]. eauto.
  - intros d' Hnd Hp. rewrite prepare_payload_traverse, <- Hvec.
    apply traverse_ext. intros key _. unfold feature_value.
    now rewrite (dict_get_permutation d d' Hnd Hp).
Qed.

(** [prepare_payload_ordered] at the reference record sent as strings. *)
Lemma prepare_payload_ordered_witness :
  exists vec,
    prepare_payload (PDict textual_payload) = Return vec
    /\ List.length vec = List.length FEATURE_ORDER
    /\ List.length vec = 18%nat
    /\ (forall i key, nth_error FEATURE_ORDER i = Some key ->
          exists v x, dict_get key textual_payload = Some v
                      /\ _normalise_value v = Return x
                      /\ nth_error vec i = Some x)
    /\ (forall d', List.NoDup (dict_keys textual_payload) ->
          Permutation textual_payload d' ->
          prepare_payload (PDict d') = Return vec).
Proof.
  apply (prepare_payload_ordered textual_payload); vm_compute; reflexivity.
Defined.

(** C1 as stated fails: a record with all 18 keys whose age is the string
    [abc] yields no vector, [prepare_payload] raises the [ValueError] of
    [int]. *)
Lemma prepare_payload_ordered_counterexample :
  has_features FEATURE_ORDER bad_age_payload = true
  /\ prepare_payload (PDict bad_age_payload)
     = Raise (mkExn ValueError
                "invalid literal for int() with base 10: 'abc'").
Proof. split; vm_compute; reflexivity. Qed.

End Normalizer.

(* ===================================================================== *)
(** * The audit log appender: [write_real_data_to_s3] *)
(* ===================================================================== *)

Module AuditLog.
Import Py Cloud App Examples PyFacts TextFacts.

Section WithMetadata.

Variable MODEL_INFO : dict.

Abbreviation write_real_data_to_s3 := (App.write_real_data_to_s3 MODEL_INFO).
Abbreviation enrich := (App.enrich MODEL_INFO).
Abbreviation append_begin := (App.append_begin MODEL_INFO).
Abbreviation racing_appends := (App.racing_appends MODEL_INFO).

Lemma enrich_dict (d : dict) (prediction : spec_float) (ts : string)
    (version : PyVal) :
  dict_get "version" MODEL_INFO = Some version ->
  enrich (PDict d) prediction ts
  = Return (enriched_record d prediction ts version).
Proof. intros Hv. unfold App.enrich. simpl. now rewrite Hv. Qed.

(** The new row is never the empty text: the enriched record has at
    least two fields, hence one comma. *)
Lemma csv_row_nonempty (d : dict) (prediction : spec_float)
    (ts : string) (version : PyVal) :
  csv_row (enriched_record d prediction ts version) <> "".
Proof.
  unfold csv_row. apply join_length_2; [discriminate|].
  unfold dict_values. rewrite !length_map.
  apply (dict_two_keys "timestamp" "model_version"); [discriminate | |].
  - apply dict_has_set_keep, dict_has_set_same.
  - apply dict_has_set_same.
Qed.

Lemma put_object_served (content bucket key : string) (w : World) :
  next_fault w = None ->
  put_object content bucket key w
  = (Return tt,
     with_objects (<[(bucket, key) := content]> (s3_objects w)) (consume w)).
Proof. intros H. unfold put_object, service_call. now rewrite H. Qed.

(** The function is its two steps in sequence. *)
Lemma write_in_two_steps (data : PyVal) (prediction : spec_float)
    (w : World) :
  write_real_data_to_s3 data prediction w
  = bind (append_begin data prediction) append_commit w.
Proof.
  unfold App.write_real_data_to_s3, App.append_begin, bind, datetime_now,
    lift, ret.
  destruct (App.enrich MODEL_INFO data prediction _); [|reflexivity].
  destruct (fetch_log _ a w) as [[[h r]|e] w']; reflexivity.
Qed.

(** What the function does once the fetch of the log has been answered
    with [hr]. *)
Lemma write_after_fetch (d : dict) (prediction : spec_float)
    (version : PyVal) (w w1 : World) (hr : string * list string) :
  dict_get "version" MODEL_INFO = Some version ->
  let enriched :=
    enriched_record d prediction (strftime_timestamp (clock w)) version in
  let key := log_key (clock w) in
  fetch_log key enriched w = (Return hr, w1) ->
  next_fault w1 = None ->
  write_real_data_to_s3 (PDict d) prediction w
  = (Return tt,
     with_objects
       (<[(BUCKET_NAME, key)
          := Text.join Text.newline
               (fst hr :: (snd hr ++ [csv_row enriched])%list)]>
          (s3_objects w1))
       (consume w1)).
Proof.
  intros Hv enriched key Hfetch Hput.
  unfold App.write_real_data_to_s3, bind, datetime_now, lift.
  rewrite (enrich_dict d prediction _ version Hv).
  fold enriched key. rewrite Hfetch.
  now apply put_object_served.
Qed.

(** C4, amended.  When the fetch of the day's log raises the no-such-key
    condition and the write is served, the object written is, for every
    record, the header (the comma-joined field names of the enriched
    record, in its key order), a newline, and one row (the comma-joined
    [str] of its values, in the same order); and when neither of the two
    holds a line boundary, the written log reads back as exactly that
    header line and that one data row. *)
Theorem first_write (d : dict) (prediction : spec_float) (version : PyVal)
    (w w1 : World) (e : Exn) :
  dict_get "version" MODEL_INFO = Some version ->
  let enriched :=
    enriched_record d prediction (strftime_timestamp (clock w)) version in
  let key := log_key (clock w) in
  let header := Text.join "," (dict_keys enriched) in
  let row := Text.join "," (map str (dict_values enriched)) in
  get_object BUCKET_NAME key w = (Raise e, w1) ->
  is_no_such_key e = true ->
  next_fault w1 = None ->
  exists w2,
    write_real_data_to_s3 (PDict d) prediction w = (Return tt, w2)
    /\ s3_objects w2
       = <[(BUCKET_NAME, key) := header ++ Text.newline ++ row]>
           (s3_objects w1)
    /\ (Text.break_free header ->
        Text.break_free row ->
        Text.splitlines (header ++ Text.newline ++ row) = [header; row]).
Proof.
  intros Hv enriched key header row Hget Hnsk Hput.
  assert (Hfetch : fetch_log key enriched w
                   = (Return (header, []), w1)).
  { unfold fetch_log, try_except, bind. now rewrite Hget, Hnsk. }
  eexists. repeat apply conj.
  - apply (write_after_fetch d prediction version w w1 _ Hv Hfetch Hput).
  - reflexivity.
  - intros Hh Hr. rewrite splitlines_line by exact Hh.
    rewrite splitlines_single; [reflexivity | exact Hr |].
    apply csv_row_nonempty.
Qed.

(** C5, amended.  When the fetch returns a log of a header and N rows and
    the write is served, the object written is, for every record, the
    newline-joined header, the N rows and the new row, in this order; and
    when the new row holds no line boundary, the written log reads back
    as the same header, the same N rows and the new row last, N+1 data
    rows in all. *)
Theorem later_write (d : dict) (prediction : spec_float) (version : PyVal)
    (w w1 : World) (existing header : string) (rows : list string) :
  dict_get "version" MODEL_INFO = Some version ->
  let enriched :=
    enriched_record d prediction (strftime_timestamp (clock w)) version in
  let key := log_key (clock w) in
  let row := Text.join "," (map str (dict_values enriched)) in
  let content := Text.join Text.newline (header :: rows ++ [row])%list in
  get_object BUCKET_NAME key w = (Return existing, w1) ->
  Text.splitlines existing = header :: rows ->
  next_fault w1 = None ->
  exists w2,
    write_real_data_to_s3 (PDict d) prediction w = (Return tt, w2)
    /\ s3_objects w2 = <[(BUCKET_NAME, key) := content]> (s3_objects w1)
    /\ (Text.break_free row ->
        Text.splitlines content = (header :: rows ++ [row])%list
        /\ List.length (tl (Text.splitlines content))
           = S (List.length rows)).
Proof.
  intros Hv enriched key row content Hget Hlines Hput.
  assert (Hfetch : fetch_log key enriched w
                   = (Return (header, rows), w1)).
  { unfold fetch_log, try_except, bind. now rewrite Hget, Hlines. }
  assert (Hsplit : Text.break_free row ->
                   Text.splitlines content
                   = (header :: rows ++ [row])%list).
  { intros Hr. unfold content.
    change (header :: rows ++ [row])%list
      with ((header :: rows) ++ [row])%list.
    rewrite splitlines_join_snoc.
    - rewrite splitlines_single; [reflexivity | exact Hr |].
      apply csv_row_nonempty.
    - rewrite <- Hlines. apply splitlines_break_free. }
  eexists. repeat apply conj.
  - apply (write_after_fetch d prediction version w w1 _ Hv Hfetch Hput).
  - reflexivity.
  - intros Hr. split; [exact (Hsplit Hr)|].
    rewrite (Hsplit Hr). simpl. rewrite length_app. simpl. lia.
Qed.

Lemma get_object_found (key existing : string) (w : World) :
  next_fault w = None ->
  s3_objects w !! (BUCKET_NAME, key) = Some existing ->
  get_object BUCKET_NAME key w = (Return existing, consume w).
Proof.
  intros Hf Hl. unfold get_object, service_call. rewrite Hf.
  change (s3_objects (consume w)) with (s3_objects w). now rewrite Hl.
Qed.

Lemma get_object_absent (key : string) (w : World) :
  next_fault w = None ->
  s3_objects w !! (BUCKET_NAME, key) = None ->
  get_object BUCKET_NAME key w = (Raise no_such_key, consume w).
Proof.
  intros Hf Hl. unfold get_object, service_call. rewrite Hf.
  change (s3_objects (consume w)) with (s3_objects w). now rewrite Hl.
Qed.

Lemma append_begin_served (d : dict) (prediction : spec_float)
    (version : PyVal) (w : World) (header : string) (rows : list string) :
  dict_get "version" MODEL_INFO = Some version ->
  next_fault w = None ->
  let enriched :=
    enriched_record d prediction (strftime_timestamp (clock w)) version in
  PriorLog (s3_objects w !! (BUCKET_NAME, log_key (clock w))) enriched
           header rows ->
  append_begin (PDict d) prediction w
  = (Return (log_key (clock w), enriched, (header, rows)), consume w).
Proof.
  intros Hv Hf enriched Hprior.
  unfold App.append_begin, bind, datetime_now, lift.
  rewrite (enrich_dict d prediction _ version Hv). fold enriched.
  unfold fetch_log, try_except, bind.
  destruct Hprior as [existing header rows Hl Hs | Hl].
  - now rewrite (get_object_found _ existing w Hf Hl), Hs.
  - now rewrite (get_object_absent _ w Hf Hl).
Qed.

Lemma prior_rows_break_free (found : option string) (enriched : dict)
    (header : string) (rows : list string) :
  PriorLog found enriched header rows -> Forall Text.break_free rows.
Proof.
  intros [existing h r _ Hs | _]; [|constructor].
  pose proof (splitlines_break_free existing) as H. rewrite Hs in H.
  now inversion H.
Qed.

(** C9.  Two requests A and B append to the same day's log; both look for
    the log before either writes (both find the same log of a header and
    N rows, or both find none), then A writes and B writes.  The store
    ends with B's write over A's: the log is B's header, the N old rows
    and B's row, which is what B alone would have left.  Read back (B's
    header and row holding no line boundary) it has N+1 data rows, not
    N+2, and A's row is not among its lines unless it equals one of the
    others. *)
Theorem lost_update (dA dB : dict) (predA predB : spec_float)
    (version : PyVal) (t : datetime) (w0 : World)
    (headerA headerB : string) (rows : list string) :
  dict_get "version" MODEL_INFO = Some version ->
  faults w0 = [] ->
  log_key t = log_key (clock w0) ->
  let key := log_key (clock w0) in
  let found := s3_objects w0 !! (BUCKET_NAME, key) in
  let recordA :=
    enriched_record dA predA (strftime_timestamp (clock w0)) version in
  let recordB :=
    enriched_record dB predB (strftime_timestamp t) version in
  PriorLog found recordA headerA rows ->
  PriorLog found recordB headerB rows ->
  let rowA := csv_row recordA in
  let rowB := csv_row recordB in
  let logA := Text.join Text.newline (headerA :: rows ++ [rowA])%list in
  let logB := Text.join Text.newline (headerB :: rows ++ [rowB])%list in
  exists w4,
    racing_appends (PDict dA) predA (PDict dB) predB t w0 = (Return tt, w4)
    /\ s3_objects w4
       = <[(BUCKET_NAME, key) := logB]>
           (<[(BUCKET_NAME, key) := logA]> (s3_objects w0))
    /\ s3_objects w4 !! (BUCKET_NAME, key) = Some logB
    /\ s3_objects w4
       = s3_objects
           (snd (write_real_data_to_s3 (PDict dB) predB (with_clock t w0)))
    /\ (Text.break_free headerB -> Text.break_free rowB ->
        Text.splitlines logB = (headerB :: rows ++ [rowB])%list
        /\ List.length (tl (Text.splitlines logB)) = S (List.length rows)
        /\ (rowA <> rowB -> ~ In rowA (headerB :: rows) ->
            ~ In rowA (Text.splitlines logB))).
Proof.
  intros Hv Hf Hday key found recordA recordB HpA HpB rowA rowB logA logB.
  assert (Hnf : forall w, faults w = [] -> next_fault w = None).
  { intros w H. unfold next_fault. now rewrite H. }
  assert (Hcf : forall w, faults w = [] -> faults (consume w) = []).
  { intros w H. unfold consume. simpl. now rewrite H. }
  set (w1 := consume w0).
  set (w2 := consume (with_clock t w1)).
  assert (Hf1 : faults w1 = []) by now apply Hcf.
  assert (Hf2 : faults w2 = []) by (apply Hcf; exact Hf1).
  assert (HbA := append_begin_served dA predA version w0 headerA rows
                   Hv (Hnf _ Hf) HpA).
  assert (HbB : append_begin (PDict dB) predB (with_clock t w1)
                = (Return (key, recordB, (headerB, rows)), w2)).
  { unfold key. rewrite <- Hday.
    apply (append_begin_served dB predB version (with_clock t w1)
             headerB rows Hv).
    - apply Hnf. exact Hf1.
    - cbn [clock with_clock]. rewrite Hday. exact HpB. }
  assert (HwB : write_real_data_to_s3 (PDict dB) predB (with_clock t w0)
                = (Return tt,
                   with_objects
                     (<[(BUCKET_NAME, key) := logB]> (s3_objects w0))
                     (consume (consume (with_clock t w0))))).
  { rewrite write_in_two_steps. unfold bind.
    rewrite (append_begin_served dB predB version (with_clock t w0)
               headerB rows Hv);
      [ | apply Hnf; exact Hf | cbn [clock with_clock]; rewrite Hday;
          exact HpB ].
    cbn [clock with_clock]. rewrite Hday. fold key.
    unfold append_commit. cbn [fst snd].
    rewrite put_object_served by (apply Hnf, Hcf; exact Hf).
    reflexivity. }
  eexists. repeat apply conj.
  - unfold App.racing_appends, bind. rewrite HbA. fold w1.
    unfold set_clock. rewrite HbB.
    unfold append_commit. cbn [fst snd].
    rewrite put_object_served by (apply Hnf; exact Hf2).
    rewrite put_object_served; [reflexivity|].
    apply Hnf. change (faults (consume w2) = []). apply Hcf, Hf2.
  - reflexivity.
  - simpl. apply lookup_insert_eq.
  - rewrite HwB. simpl. now rewrite insert_insert_eq.
  - intros HhB HrB.
    assert (Hsplit : Text.splitlines logB
                     = (headerB :: rows ++ [rowB])%list).
    { unfold logB.
      change (headerB :: rows ++ [rowB])%list
        with ((headerB :: rows) ++ [rowB])%list.
      rewrite splitlines_join_snoc.
      - rewrite splitlines_single; [reflexivity | exact HrB |].
        apply csv_row_nonempty.
      - constructor; [exact HhB|].
        apply (prior_rows_break_free _ _ _ _ HpB). }
    repeat apply conj.
    + exact Hsplit.
    + rewrite Hsplit. simpl. rewrite length_app. simpl. lia.
    + intros Hne Hnot Hin. rewrite Hsplit in Hin.
      change (headerB :: rows ++ [rowB])%list
        with ((headerB :: rows) ++ [rowB])%list in Hin.
      apply in_app_or in Hin as [Hin|[Hin|[]]]; [tauto | congruence].
Qed.

End WithMetadata.

(** [first_write] at the reference payload on a day without log. *)
Lemma first_write_witness :
  exists w2,
    App.write_real_data_to_s3 sample_info (PDict reference_payload) f_1_5
                              fresh_world
    = (Return tt, w2)
    /\ s3_objects w2 !! (BUCKET_NAME, today_key)
       = Some (reference_header ++ Text.newline ++ reference_row)
    /\ Text.splitlines (reference_header ++ Text.newline ++ reference_row)
       = [reference_header; reference_row].
Proof.
  destruct (first_write sample_info reference_payload f_1_5 (PStr "1.0")
              fresh_world (consume fresh_world) no_such_key)
    as (w2 & Hw & Hs & Hl); try reflexivity.
  exists w2. repeat apply conj.
  - exact Hw.
  - rewrite Hs. apply lookup_insert_eq.
  - apply Hl; vm_compute; reflexivity.
Defined.

(** C4 as stated fails: on a day without log, a record with a field that
    spans two lines leaves a log that reads back as a header and two data
    rows, neither of which is the row of the record. *)
Lemma first_write_counterexample :
  get_object BUCKET_NAME today_key fresh_world
  = (Raise no_such_key, consume fresh_world)
  /\ exists w2,
       App.write_real_data_to_s3 sample_info (PDict two_line_payload) f_1_5
                                 fresh_world
       = (Return tt, w2)
       /\ option_map Text.splitlines
            (s3_objects w2 !! (BUCKET_NAME, today_key))
          = Some [ "Age,Annual_Income,Num_Bank_Accounts,Num_Credit_Card,"
                     ++ "Num_of_Delayed_Payment,Credit_Utilization_Ratio,"
                     ++ "Payment_of_Min_Amount,Total_EMI_per_month,"
                     ++ "Credit_History_Age_Formated,Auto_Loan,"
                     ++ "Credit-Builder_Loan,Personal_Loan,"
                     ++ "Home_Equity_Loan,Mortgage_Loan,Student_Loan,"
                     ++ "Debt_Consolidation_Loan,Payday_Loan,"
                     ++ "Missed_Payment_Day,note,credit_score_prediction,"
                     ++ "timestamp,model_version";
                   reference_values ++ ",a";
                   "b,1.5,04-11-2026 09:05,1.0" ].
Proof.
  split; [reflexivity|].
  exists (snd (App.write_real_data_to_s3 sample_info
                 (PDict two_line_payload) f_1_5 fresh_world)).
  split; vm_compute; reflexivity.
Qed.

(** [later_write] at the reference payload on a day with one logged row. *)
Lemma later_write_witness :
  exists w2,
    App.write_real_data_to_s3 sample_info (PDict reference_payload) f_1_5
                              logged_world
    = (Return tt, w2)
    /\ option_map Text.splitlines
         (s3_objects w2 !! (BUCKET_NAME, today_key))
       = Some ["h"; "r1"; reference_row].
Proof.
  destruct (later_write sample_info reference_payload f_1_5 (PStr "1.0")
              logged_world (consume logged_world) old_log "h" ["r1"])
    as (w2 & Hw & Hs & Hl); try (vm_compute; reflexivity).
  exists w2. split; [exact Hw|].
  change today_key with (log_key (clock logged_world)).
  rewrite Hs, lookup_insert_eq. cbn [option_map].
  rewrite (proj1 (Hl ltac:(vm_compute; reflexivity))).
  vm_compute. reflexivity.
Defined.

(** C5 as stated fails: the log holds one data row, and after a record
    with a field that spans two lines has been appended it reads back
    with three data rows, not two. *)
Lemma later_write_counterexample :
  option_map Text.splitlines
    (s3_objects logged_world !! (BUCKET_NAME, today_key))
  = Some ["h"; "r1"]
  /\ exists w2,
       App.write_real_data_to_s3 sample_info (PDict two_line_payload) f_1_5
                                 logged_world
       = (Return tt, w2)
       /\ option_map Text.splitlines
            (s3_objects w2 !! (BUCKET_NAME, today_key))
          = Some [ "h"; "r1"; reference_values ++ ",a";
                   "b,1.5,04-11-2026 09:05,1.0" ].
Proof.
  split; [vm_compute; reflexivity|].
  exists (snd (App.write_real_data_to_s3 sample_info
                 (PDict two_line_payload) f_1_5 logged_world)).
  split; vm_compute; reflexivity.
Qed.

(** [lost_update] at two requests on a day with one logged row: A sends
    the reference payload in the morning, B the same record as strings at
    noon; B's row alone follows the old row. *)
Lemma lost_update_witness :
  exists w4,
    App.racing_appends sample_info (PDict reference_payload) f_1_5
                       (PDict textual_payload) f_1_5 noon logged_world
    = (Return tt, w4)
    /\ option_map Text.splitlines
         (s3_objects w4 !! (BUCKET_NAME, today_key))
       = Some ["h"; "r1";
               "1,0,0,0,0,0,0,0,0,284,0.0,0,29.112467941684688,6,5,1,"
                 ++ "43391.96,30,1.5,04-11-2026 12:00,1.0"].
Proof.
  destruct (lost_update sample_info reference_payload textual_payload
              f_1_5 f_1_5 (PStr "1.0") noon logged_world "h" "h" ["r1"])
    as (w4 & Hw & _ & Hl & _ & Hsplit);
    try (vm_compute; reflexivity);
    try (apply prior_existing with (existing := old_log);
         vm_compute; reflexivity).
  exists w4. split; [exact Hw|].
  change today_key with (log_key (clock logged_world)).
  rewrite Hl. cbn [option_map].
  destruct Hsplit as [Hsplit _]; [vm_compute; reflexivity .. |].
  rewrite Hsplit. vm_compute. reflexivity.
Defined.

End AuditLog.

(* ===================================================================== *)
(** * The orchestrator: [handler] *)
(* ===================================================================== *)

Module Orchestrator.
Import Py Cloud App Examples PyFacts.

Section WithService.

Variable MODEL_predict : list (list PyVal) -> Outcome (list PyVal).
Variable MODEL_INFO : dict.
Variable json_decode : string -> Outcome PyVal.

Abbreviation handler := (App.handler MODEL_predict MODEL_INFO json_decode).
Abbreviation predict := (App.predict MODEL_predict).
Abbreviation extract_payload := (App.extract_payload json_decode).
Abbreviation write_real_data_to_s3 := (App.write_real_data_to_s3 MODEL_INFO).

(** A failure inside the [try] block becomes a 400 response, and nothing
    outside the function has been touched. *)
Lemma handler_rejects (event : dict) (payload : PyVal) (exc : Exn)
    (w : World) :
  extract_payload event = Return payload ->
  predict payload = Raise exc ->
  handler event w = (Return (error_response exc), w).
Proof.
  intros He Hp. unfold App.handler, bind, lift. now rewrite He, Hp.
Qed.

(** After a successful inference the two side effects run in sequence and
    the response is built last. *)
Lemma handler_accepts (event : dict) (payload : PyVal)
    (prediction : spec_float) (w : World) :
  extract_payload event = Return payload ->
  predict payload = Return prediction ->
  handler event w
  = bind (publish_metrics payload prediction) (fun _ =>
    bind (write_real_data_to_s3 payload prediction) (fun _ =>
    bind (lift (getitem (PDict MODEL_INFO) "version")) (fun version =>
    ret (success_response prediction version)))) w.
Proof.
  intros He Hp. unfold App.handler, bind at 1, lift at 1.
  now rewrite He, Hp.
Qed.

(** C3, amended.  When [key] is the first key of [FEATURE_ORDER] that the
    record lacks and the values under the keys before it coerce,
    [prepare_payload] raises the error that names [key] and returns no
    vector; a request carrying such a record is answered with status 400
    and that message, and a request with an empty data mapping with the
    message for [Age]. *)
Theorem missing_feature_rejected (d : dict) (pre post : list string)
    (key : string) :
  FEATURE_ORDER = (pre ++ key :: post)%list ->
  has_features pre d = true ->
  coercible pre d = true ->
  dict_has key d = false ->
  prepare_payload (PDict d)
  = Raise (mkExn ValueError
             ("Feature '" ++ key ++ "' missing from payload."))
  /\ (forall event w,
        extract_payload event = Return (PDict d) ->
        handler event w
        = (Return (mkResponse 400 [("Content-Type", "application/json")]
                     (json_dumps
                        (PDict [("error",
                                 PStr ("Feature '" ++ key
                                         ++ "' missing from payload."))]))),
           w))
  /\ (forall w,
        handler [("data", PDict [])] w
        = (Return (mkResponse 400 [("Content-Type", "application/json")]
                     ("{" ++ q ++ "error" ++ q ++ ": " ++ q
                          ++ "Feature 'Age' missing from payload."
                          ++ q ++ "}")),
           w)).
Proof.
  intros Horder Hpre Hco Hkey.
  assert (Hraise : prepare_payload (PDict d) = Raise (missing_feature key)).
  { rewrite Normalizer.prepare_payload_traverse, Horder.
    apply traverse_raises.
    - now apply Normalizer.feature_values_return.
    - unfold feature_value. now rewrite (dict_has_false _ _ Hkey). }
  repeat apply conj.
  - exact Hraise.
  - intros event w He.
    rewrite (handler_rejects event (PDict d) (missing_feature key) w He).
    + reflexivity.
    + unfold App.predict. now rewrite Hraise.
  - intros w. reflexivity.
Qed.

(** C10.  An event with a [body] that [json.loads] rejects (a text that
    is no JSON document, or a value that is no text) makes [handler]
    raise the decoder's exception: no response is returned and nothing has
    been touched, because the decoding precedes the [try] block. *)
Theorem invalid_body_unhandled (event : dict) (raw : PyVal) (e : Exn)
    (w : World) :
  dict_get "body" event = Some raw ->
  json_loads json_decode raw = Raise e ->
  handler event w = (Raise e, w).
Proof.
  intros Hbody Hloads.
  unfold App.handler, App.extract_payload, bind, lift, dict_get_default.
  rewrite dict_has_get, Hbody, Hloads. reflexivity.
Qed.

(** The response to a successful request, written out. *)
Lemma success_body (prediction : spec_float) (version : PyVal) :
  body (success_response prediction version)
  = "{" ++ q ++ "prediction" ++ q ++ ": " ++ json_float prediction
        ++ ", " ++ q ++ "version" ++ q ++ ": " ++ json_dumps version
        ++ "}".
Proof.
  unfold success_response, body, q. cbn [json_dumps map fst snd].
  unfold Text.join. cbn [String.concat].
  change (json_str "prediction")
    with (String Text.dquote "" ++ "prediction" ++ String Text.dquote "").
  change (json_str "version")
    with (String Text.dquote "" ++ "version" ++ String Text.dquote "").
  now rewrite !TextFacts.append_assoc.
Qed.

(** A log write that returns has found the version of the model. *)
Lemma write_returns_version (d : dict) (prediction : spec_float)
    (w w' : World) :
  write_real_data_to_s3 (PDict d) prediction w = (Return tt, w') ->
  exists version, dict_get "version" MODEL_INFO = Some version.
Proof.
  unfold App.write_real_data_to_s3, bind, datetime_now, lift, App.enrich.
  cbn [unpack_mapping obind getitem].
  destruct (dict_get "version" MODEL_INFO) as [v|]; [eauto | discriminate].
Qed.

(** C6.  A request whose record is normalised to [features], for which
    the model returns scores whose first element converts to the float
    [prediction], and whose two side effects return, is answered with
    status 200, the JSON content type, and a body that holds the
    prediction and the version field of the metadata. *)
Theorem handler_success (event d : dict) (features scores : list PyVal)
    (x : PyVal) (prediction : spec_float) (w w1 w2 : World) :
  extract_payload event = Return (PDict d) ->
  prepare_payload (PDict d) = Return features ->
  MODEL_predict [features] = Return scores ->
  first scores = Return x ->
  float x = Return prediction ->
  publish_metrics (PDict d) prediction w = (Return tt, w1) ->
  write_real_data_to_s3 (PDict d) prediction w1 = (Return tt, w2) ->
  exists version,
    dict_get "version" MODEL_INFO = Some version
    /\ handler event w
       = (Return (mkResponse 200 [("Content-Type", "application/json")]
                    (json_dumps (PDict [("prediction", PFloat prediction);
                                        ("version", version)]))),
          w2)
    /\ json_dumps (PDict [("prediction", PFloat prediction);
                          ("version", version)])
       = "{" ++ q ++ "prediction" ++ q ++ ": " ++ json_float prediction
             ++ ", " ++ q ++ "version" ++ q ++ ": " ++ json_dumps version
             ++ "}".
Proof.
  intros He Hn Hm Hf Hx Hpub Hwrite.
  destruct (write_returns_version _ _ _ _ Hwrite) as [version Hv].
  exists version. repeat apply conj.
  - exact Hv.
  - rewrite (handler_accepts event (PDict d) prediction w He).
    + unfold bind. rewrite Hpub, Hwrite. unfold lift. cbn [getitem].
      now rewrite Hv.
    + unfold App.predict. rewrite Hn. cbn [obind]. rewrite Hm.
      cbn [obind]. rewrite Hf. exact Hx.
  - apply (success_body prediction version).
Qed.

(** The metrics emitter leaves the store alone. *)
Lemma put_metric_data_store (call : MetricCall) (w w' : World)
    (r : Outcome unit) :
  put_metric_data call w = (r, w') -> s3_objects w' = s3_objects w.
Proof.
  unfold put_metric_data, service_call.
  destruct (next_fault w); intros H; inversion H; reflexivity.
Qed.

Lemma for_each_store {A} (xs : list A) (f : A -> MetricCall) (w w' : World)
    (r : Outcome unit) :
  for_each xs (fun x => put_metric_data (f x)) w = (r, w') ->
  s3_objects w' = s3_objects w.
Proof.
  revert w. induction xs as [|x xs IH]; intros w H.
  - inversion H. reflexivity.
  - cbn [for_each] in H. unfold bind in H.
    destruct (put_metric_data (f x) w) as [[[]|e] w1] eqn:E.
    + rewrite (IH _ H). now apply put_metric_data_store in E.
    + inversion H; subst. now apply put_metric_data_store in E.
Qed.

Lemma publish_metrics_store (data : PyVal) (prediction : spec_float)
    (w w' : World) (r : Outcome unit) :
  publish_metrics data prediction w = (r, w') ->
  s3_objects w' = s3_objects w.
Proof.
  unfold publish_metrics, bind at 1. intros H.
  destruct (put_metric_data _ w) as [[[]|e] w1] eqn:E.
  - apply put_metric_data_store in E. rewrite <- E.
    unfold bind, lift in H. destruct (items data) as [kvs|e].
    + now apply for_each_store in H.
    + now inversion H.
  - inversion H; subst. now apply put_metric_data_store in E.
Qed.

(** C7.  After a successful inference, [handler] is [publish_metrics]
    followed by [write_real_data_to_s3], both applied to the payload as
    extracted and to the prediction, followed by the success response.
    The store is as it was while the metrics are emitted.  An exception
    of either side effect is the outcome of [handler]: no response is
    returned, and after a failure of the emitter the appender has not
    run. *)
Theorem side_effects_in_order (event : dict) (payload : PyVal)
    (prediction : spec_float) (w : World) :
  extract_payload event = Return payload ->
  predict payload = Return prediction ->
  handler event w
  = bind (publish_metrics payload prediction) (fun _ =>
    bind (write_real_data_to_s3 payload prediction) (fun _ =>
    bind (lift (getitem (PDict MODEL_INFO) "version")) (fun version =>
    ret (success_response prediction version)))) w
  /\ (forall r w1,
        publish_metrics payload prediction w = (r, w1) ->
        s3_objects w1 = s3_objects w)
  /\ (forall e w1,
        publish_metrics payload prediction w = (Raise e, w1) ->
        handler event w = (Raise e, w1))
  /\ (forall e w1 w2,
        publish_metrics payload prediction w = (Return tt, w1) ->
        write_real_data_to_s3 payload prediction w1 = (Raise e, w2) ->
        handler event w = (Raise e, w2)).
Proof.
  intros He Hp.
  pose proof (handler_accepts event payload prediction w He Hp) as Hh.
  repeat apply conj.
  - exact Hh.
  - intros r w1. apply publish_metrics_store.
  - intros e w1 Hpub. rewrite Hh. unfold bind. now rewrite Hpub.
  - intros e w1 w2 Hpub Hwrite. rewrite Hh. unfold bind.
    now rewrite Hpub, Hwrite.
Qed.

(** C8, amended.  When the day's log is fetched and has no line, which
    means that it is the empty text, [write_real_data_to_s3] raises the
    [ValueError] about the empty file; [handler] has emitted the metrics
    by then and does not catch the exception, so the request ends with
    that exception and without any response. *)
Theorem empty_log_propagates (event d : dict) (prediction : spec_float)
    (version : PyVal) (w w1 w1' : World) (existing : string) :
  extract_payload event = Return (PDict d) ->
  predict (PDict d) = Return prediction ->
  publish_metrics (PDict d) prediction w = (Return tt, w1) ->
  dict_get "version" MODEL_INFO = Some version ->
  get_object BUCKET_NAME (log_key (clock w1)) w1 = (Return existing, w1') ->
  Text.splitlines existing = [] ->
  existing = ""
  /\ write_real_data_to_s3 (PDict d) prediction w1
     = (Raise (mkExn ValueError "Empty file retrieved from S3"), w1')
  /\ handler event w
     = (Raise (mkExn ValueError "Empty file retrieved from S3"), w1')
  /\ (forall response w', handler event w <> (Return response, w')).
Proof.
  intros He Hp Hpub Hv Hget Hlines.
  assert (Hwrite : write_real_data_to_s3 (PDict d) prediction w1
                   = (Raise (mkExn ValueError "Empty file retrieved from S3"),
                      w1')).
  { unfold App.write_real_data_to_s3, bind, datetime_now, lift.
    rewrite (AuditLog.enrich_dict MODEL_INFO d prediction _ version Hv).
    unfold fetch_log, try_except, bind. rewrite Hget, Hlines.
    reflexivity. }
  assert (Hh : handler event w
               = (Raise (mkExn ValueError "Empty file retrieved from S3"),
                  w1')).
  { rewrite (handler_accepts event (PDict d) prediction w He Hp).
    unfold bind. now rewrite Hpub, Hwrite. }
  repeat apply conj.
  - now apply TextFacts.splitlines_empty_iff.
  - exact Hwrite.
  - exact Hh.
  - intros response w'. rewrite Hh. discriminate.
Qed.

End WithService.

(** [missing_feature_rejected] at a record that has an age and no income. *)
Lemma missing_feature_rejected_witness :
  prepare_payload (PDict [("Age", PStr "30")])
  = Raise (mkExn ValueError "Feature 'Annual_Income' missing from payload.").
Proof.
  apply (missing_feature_rejected sample_model sample_info sample_decode
           [("Age", PStr "30")] ["Age"] (tl (tl FEATURE_ORDER))
           "Annual_Income"); reflexivity.
Defined.

(** C3 as stated fails: the record lacks 17 keys, and the error is the
    [ValueError] of [int] about the age, which names no missing key. *)
Lemma missing_feature_rejected_counterexample :
  has_features FEATURE_ORDER only_bad_age = false
  /\ prepare_payload (PDict only_bad_age)
     = Raise (mkExn ValueError
                "invalid literal for int() with base 10: 'abc'")
  /\ forall key, prepare_payload (PDict only_bad_age)
                 <> Raise (missing_feature key).
Proof.
  repeat apply conj; [reflexivity | reflexivity |].
  intros key H. vm_compute in H. inversion H as [Hmsg].
Qed.

(** [invalid_body_unhandled] at a body that is cut short. *)
Lemma invalid_body_unhandled_witness :
  App.handler sample_model sample_info sample_decode
              [("body", PStr "{oops")] fresh_world
  = (Raise (mkExn JSONDecodeError
              "Expecting value: line 1 column 1 (char 0)"),
     fresh_world).
Proof.
  apply (invalid_body_unhandled sample_model sample_info sample_decode
           [("body", PStr "{oops")] (PStr "{oops")); reflexivity.
Defined.

(** [handler_success] at the request of [tests/app_test.py]. *)
Lemma handler_success_witness :
  fst (App.handler sample_model sample_info sample_decode
                   (direct_event reference_payload) fresh_world)
  = Return (mkResponse 200 [("Content-Type", "application/json")]
              ("{" ++ q ++ "prediction" ++ q ++ ": 1.5, "
                   ++ q ++ "version" ++ q ++ ": " ++ q ++ "1.0" ++ q
                   ++ "}")).
Proof.
  set (w1 := snd (publish_metrics (PDict reference_payload) f_1_5
                    fresh_world)).
  set (w2 := snd (App.write_real_data_to_s3 sample_info
                    (PDict reference_payload) f_1_5 w1)).
  destruct (handler_success sample_model sample_info sample_decode
              (direct_event reference_payload) reference_payload
              (map snd reference_payload) [PFloat f_1_5] (PFloat f_1_5)
              f_1_5 fresh_world w1 w2)
    as (version & Hv & Hh & _); [ vm_compute; reflexivity .. | ].
  rewrite Hh. inversion Hv; subst. vm_compute. reflexivity.
Defined.

(** [side_effects_in_order] on a day when CloudWatch turns the first call
    down: the request ends with that exception and the store is empty as
    before. *)
Lemma side_effects_in_order_witness :
  fst (App.handler sample_model sample_info sample_decode
                   (direct_event reference_payload) throttled_world)
  = Raise throttled
  /\ s3_objects
       (snd (App.handler sample_model sample_info sample_decode
                         (direct_event reference_payload) throttled_world))
     = ∅.
Proof.
  destruct (side_effects_in_order sample_model sample_info sample_decode
              (direct_event reference_payload) (PDict reference_payload)
              f_1_5 throttled_world)
    as (_ & Hstore & Hpub & _); [ vm_compute; reflexivity .. | ].
  rewrite (Hpub throttled (consume throttled_world));
    [|vm_compute; reflexivity].
  split; [reflexivity|].
  apply (Hstore (Raise throttled) (consume throttled_world)).
  vm_compute; reflexivity.
Defined.

(** [empty_log_propagates] at the reference request on a day whose log
    object is empty. *)
Lemma empty_log_propagates_witness :
  fst (App.handler sample_model sample_info sample_decode
                   (direct_event reference_payload) empty_log_world)
  = Raise (mkExn ValueError "Empty file retrieved from S3").
Proof.
  set (w1 := snd (publish_metrics (PDict reference_payload) f_1_5
                    empty_log_world)).
  destruct (empty_log_propagates sample_model sample_info sample_decode
              (direct_event reference_payload) reference_payload f_1_5
              (PStr "1.0") empty_log_world w1 (consume w1) "")
    as (_ & _ & Hh & _); [ vm_compute; reflexivity .. | ].
  now rewrite Hh.
Defined.

(** C8 as stated fails: the day's log exists and is empty, and the
    reference request ends with the [ValueError] of the appender; no
    response, of status 400 or other, is returned. *)
Lemma empty_log_counterexample :
  s3_objects empty_log_world !! (BUCKET_NAME, today_key) = Some ""
  /\ Text.splitlines "" = []
  /\ fst (App.handler sample_model sample_info sample_decode
                      (direct_event reference_payload) empty_log_world)
     = Raise (mkExn ValueError "Empty file retrieved from S3")
  /\ forall response,
       fst (App.handler sample_model sample_info sample_decode
                        (direct_event reference_payload) empty_log_world)
       <> Return response.
Proof.
  assert (H : fst (App.handler sample_model sample_info sample_decode
                     (direct_event reference_payload) empty_log_world)
              = Raise (mkExn ValueError "Empty file retrieved from S3"))
    by (vm_compute; reflexivity).
  repeat apply conj.
  - vm_compute. reflexivity.
  - reflexivity.
  - exact H.
  - intros response. rewrite H. discriminate.
Qed.

End Orchestrator.

(* ===================================================================== *)
(** * More about the feature normaliser *)
(* ===================================================================== *)

Module NormalizerMore.
Import Py App Examples PyFacts.

Lemma traverse_returns_forallb {A B} (f : A -> Outcome B) (xs : list A) :
  returns (traverse f xs) = forallb (fun x => returns (f x)) xs.
Proof.
  induction xs as [|x xs IH]; [reflexivity|].
  cbn [traverse forallb]. rewrite <- IH.
  destruct (f x); [|reflexivity].
  cbn [obind returns andb]. now destruct (traverse f xs).
Qed.

Lemma feature_value_returns (d : dict) (key : string) :
  returns (feature_value d key)
  = dict_has key d
    && match dict_get key d with
       | Some v => returns (_normalise_value v)
       | None => true
       end.
Proof.
  unfold feature_value. rewrite dict_has_get.
  now destruct (dict_get key d).
Qed.

Lemma forallb_andb {A} (p q : A -> bool) (xs : list A) :
  forallb (fun x => p x && q x) xs = forallb p xs && forallb q xs.
Proof.
  induction xs as [|x xs IH]; [reflexivity|].
  cbn [forallb]. rewrite IH.
  destruct (p x), (q x), (forallb p xs); reflexivity.
Qed.

Lemma forallb_pointwise {A} (p q : A -> bool) (xs : list A) :
  (forall x, p x = q x) -> forallb p xs = forallb q xs.
Proof.
  intros H. induction xs as [|x xs IH]; [reflexivity|].
  cbn [forallb]. now rewrite H, IH.
Qed.

(** X1.  [prepare_payload] returns a vector for a record exactly when the
    record has all the keys of [FEATURE_ORDER] and the values under them
    coerce; in every other case it raises. *)
Theorem prepare_payload_returns_iff (d : dict) :
  returns (prepare_payload (PDict d))
  = has_features FEATURE_ORDER d && coercible FEATURE_ORDER d.
Proof.
  rewrite Normalizer.prepare_payload_traverse, traverse_returns_forallb.
  unfold has_features, coercible. rewrite <- forallb_andb.
  apply forallb_pointwise. intros key. apply feature_value_returns.
Qed.

(** X2.  Only the entries under the keys of [FEATURE_ORDER] matter: two
    records that agree on these keys get the same outcome, vector or
    exception, whatever else they hold and in whatever order. *)
Theorem prepare_payload_ignores_other_keys (d d' : dict) :
  (forall key, In key FEATURE_ORDER -> dict_get key d' = dict_get key d) ->
  prepare_payload (PDict d') = prepare_payload (PDict d).
Proof.
  intros H. rewrite !Normalizer.prepare_payload_traverse.
  apply traverse_ext. intros key Hkey. unfold feature_value.
  now rewrite (H key Hkey).
Qed.

(** [prepare_payload_ignores_other_keys] at the reference payload with
    and without a free-text field. *)
Lemma prepare_payload_ignores_other_keys_witness :
  prepare_payload (PDict two_line_payload)
  = prepare_payload (PDict reference_payload).
Proof.
  apply prepare_payload_ignores_other_keys.
  intros key Hkey. unfold FEATURE_ORDER in Hkey.
  repeat (destruct Hkey as [<-|Hkey]; [reflexivity|]).
  destruct Hkey.
Defined.

(** X3.  The first key of [FEATURE_ORDER] whose value does not coerce,
    when no key before it is missing or uncoercible, decides the outcome:
    [prepare_payload] raises the exception of that coercion. *)
Theorem prepare_payload_coercion_error (d : dict) (pre post : list string)
    (key : string) (v : PyVal) (e : Exn) :
  FEATURE_ORDER = (pre ++ key :: post)%list ->
  has_features pre d = true ->
  coercible pre d = true ->
  dict_get key d = Some v ->
  _normalise_value v = Raise e ->
  prepare_payload (PDict d) = Raise e.
Proof.
  intros Horder Hpre Hco Hget Hv.
  rewrite Normalizer.prepare_payload_traverse, Horder.
  apply traverse_raises.
  - now apply Normalizer.feature_values_return.
  - unfold feature_value. now rewrite Hget.
Qed.

(** [prepare_payload_coercion_error] at the reference payload with an
    income that is no number. *)
Lemma prepare_payload_coercion_error_witness :
  prepare_payload
    (PDict (dict_set "Annual_Income" (PStr "12.5k") reference_payload))
  = Raise (mkExn ValueError "could not convert string to float: '12.5k'").
Proof.
  apply (prepare_payload_coercion_error
           (dict_set "Annual_Income" (PStr "12.5k") reference_payload)
           ["Age"] (tl (tl FEATURE_ORDER)) "Annual_Income" (PStr "12.5k"));
    reflexivity.
Defined.

(** What [_normalise_value] returns is never a string, and coercing it
    again changes nothing. *)
Lemma normalise_value_stable (v x : PyVal) :
  _normalise_value v = Return x ->
  (forall s, x <> PStr s) /\ _normalise_value x = Return x.
Proof.
  destruct v; cbn [_normalise_value]; intros H;
    try (inversion H; subst; split; [discriminate | reflexivity]).
  destruct (Text.contains "." s).
  - destruct (float_of_str s); inversion H; subst.
    split; [discriminate | reflexivity].
  - destruct (int_of_str s); inversion H; subst.
    split; [discriminate | reflexivity].
Qed.

(** X4.  The vector that [prepare_payload] returns holds no string, and
    normalising its entries again gives the same vector. *)
Theorem prepare_payload_no_string (d : dict) (vec : list PyVal) :
  prepare_payload (PDict d) = Return vec ->
  Forall (fun x => forall s, x <> PStr s) vec
  /\ traverse _normalise_value vec = Return vec.
Proof.
  rewrite Normalizer.prepare_payload_traverse.
  generalize FEATURE_ORDER. intros keys. revert vec.
  induction keys as [|key keys IH]; intros vec H.
  - inversion H; subst. split; [constructor | reflexivity].
  - cbn [traverse] in H.
    destruct (feature_value d key) as [x|] eqn:Hx; [|discriminate].
    cbn [obind] in H.
    destruct (traverse (feature_value d) keys) as [xs|]; [|discriminate].
    inversion H; subst. destruct (IH xs eq_refl) as [Hall Hagain].
    unfold feature_value in Hx.
    destruct (dict_get key d) as [v|]; [|discriminate].
    destruct (normalise_value_stable v x Hx) as [Hns Hst].
    split; [now constructor|].
    cbn [traverse]. now rewrite Hst, Hagain.
Qed.

(** [prepare_payload_no_string] at the reference record sent as strings. *)
Lemma prepare_payload_no_string_witness :
  Forall (fun x => forall s, x <> PStr s)
         (map snd reference_payload).
Proof.
  apply (prepare_payload_no_string textual_payload). vm_compute. reflexivity.
Defined.

(** X5.  A payload that is no mapping (a string, a list, a number, a
    boolean or null) never gets through [prepare_payload]: the outcome is
    a [TypeError] or the missing-feature error for [Age]. *)
Theorem prepare_payload_needs_mapping (payload : PyVal) :
  (forall d, payload <> PDict d) ->
  exists e,
    prepare_payload payload = Raise e
    /\ (exn_class e = TypeError \/ e = missing_feature "Age").
Proof.
  intros Hnd. unfold prepare_payload, FEATURE_ORDER.
  destruct payload as [| b | n | f | s | xs | d];
    try (eexists; split; [reflexivity | left; reflexivity]).
  - cbn [prepare_loop contains obind].
    destruct (Text.contains "Age" s); cbn [negb];
      eexists; (split; [reflexivity|]); [left | right]; reflexivity.
  - cbn [prepare_loop contains obind].
    destruct (existsb _ xs); cbn [negb];
      eexists; (split; [reflexivity|]); [left | right]; reflexivity.
  - now destruct (Hnd d).
Qed.

(** [prepare_payload_needs_mapping] at a payload that is a list of the
    feature names. *)
Lemma prepare_payload_needs_mapping_witness :
  exists e,
    prepare_payload (PList (map PStr FEATURE_ORDER)) = Raise e
    /\ (exn_class e = TypeError \/ e = missing_feature "Age").
Proof.
  apply prepare_payload_needs_mapping. discriminate.
Defined.

End NormalizerMore.

(* ===================================================================== *)
(** * Integers sent as text *)
(* ===================================================================== *)

Module IntegerText.
Import Py App.
Import Decimal.

(** One step of [digits_value] on the text of a decimal digit. *)
Ltac digit_step :=
  cbn [NilEmpty.string_of_uint digits_value Pos.of_uint_acc Pos.of_uint];
  match goal with
  | |- context [Text.is_digit ?c] => change (Text.is_digit c) with true
  end;
  cbv iota;
  match goal with
  | |- context [Text.digit_val ?c] =>
      let v := eval vm_compute in (Text.digit_val c) in
      change (Text.digit_val c) with v
  end.

Lemma digits_value_acc (d : uint) (p : positive) (prev : bool) :
  digits_value (NilEmpty.string_of_uint d) (Z.pos p) prev
  = match d with
    | Nil => if prev then Some (Z.pos p) else None
    | _ => Some (Z.pos (Pos.of_uint_acc d p))
    end.
Proof.
  revert p prev.
  induction d as [|d IH|d IH|d IH|d IH|d IH|d IH|d IH|d IH|d IH|d IH];
    intros p prev; [reflexivity|..];
    digit_step;
    match goal with
    | |- digits_value _ ?acc true = Some (Z.pos (Pos.of_uint_acc _ ?q)) =>
        replace acc with (Z.pos q) by lia
    end;
    rewrite IH; now destruct d.
Qed.

Lemma digits_value_zero (d : uint) (prev : bool) :
  digits_value (NilEmpty.string_of_uint d) 0 prev
  = match d with
    | Nil => if prev then Some 0 else None
    | _ => Some (Z.of_N (Pos.of_uint d))
    end.
Proof.
  revert prev.
  induction d as [|d IH|d IH|d IH|d IH|d IH|d IH|d IH|d IH|d IH|d IH];
    intros prev; [reflexivity | |..].
  - digit_step. change (0 * 10 + 0) with 0. rewrite IH. now destruct d.
  - digit_step. change (0 * 10 + 1) with (Z.pos 1).
    rewrite digits_value_acc. now destruct d.
  - digit_step. change (0 * 10 + 2) with (Z.pos 2).
    rewrite digits_value_acc. now destruct d.
  - digit_step. change (0 * 10 + 3) with (Z.pos 3).
    rewrite digits_value_acc. now destruct d.
  - digit_step. change (0 * 10 + 4) with (Z.pos 4).
    rewrite digits_value_acc. now destruct d.
  - digit_step. change (0 * 10 + 5) with (Z.pos 5).
    rewrite digits_value_acc. now destruct d.
  - digit_step. change (0 * 10 + 6) with (Z.pos 6).
    rewrite digits_value_acc. now destruct d.
  - digit_step. change (0 * 10 + 7) with (Z.pos 7).
    rewrite digits_value_acc. now destruct d.
  - digit_step. change (0 * 10 + 8) with (Z.pos 8).
    rewrite digits_value_acc. now destruct d.
  - digit_step. change (0 * 10 + 9) with (Z.pos 9).
    rewrite digits_value_acc. now destruct d.
Qed.

(** The decimal text of a positive number holds digits only. *)
Lemma uint_text_digits (d : uint) (p : ascii -> bool) :
  (forall c, Text.is_digit c = true -> p c = false) ->
  Text.has_char p (NilEmpty.string_of_uint d) = false.
Proof.
  intros Hp.
  induction d; cbn [NilEmpty.string_of_uint Text.has_char];
    [reflexivity | rewrite IHd, Hp; reflexivity ..].
Qed.

Lemma digit_no_space (c : ascii) :
  Text.is_digit c = true -> Text.is_space c = false.
Proof. unfold Text.is_digit, Text.is_space. lia. Qed.

Lemma digit_no_dot (c : ascii) :
  Text.is_digit c = true -> Ascii.eqb "." c = false.
Proof.
  intros H. apply Ascii.eqb_neq. intros <-. discriminate.
Qed.

Lemma rstrip_id (s : string) :
  Text.has_char Text.is_space s = false -> Text.rstrip s = s.
Proof.
  induction s as [|c s IH]; [reflexivity|].
  cbn [Text.has_char Text.rstrip]. intros H.
  apply orb_false_iff in H as [Hc Hs]. rewrite (IH Hs), Hc.
  now destruct s.
Qed.

Lemma strip_id (s : string) :
  Text.has_char Text.is_space s = false -> Text.strip s = s.
Proof.
  intros H. unfold Text.strip.
  assert (Hl : Text.lstrip s = s).
  { destruct s as [|c s]; [reflexivity|]. cbn [Text.has_char] in H.
    apply orb_false_iff in H as [Hc _]. cbn [Text.lstrip]. now rewrite Hc. }
  rewrite Hl. now apply rstrip_id.
Qed.

Lemma pos_text (p : positive) :
  NilZero.string_of_uint (Pos.to_uint p)
  = NilEmpty.string_of_uint (Pos.to_uint p).
Proof.
  pose proof (DecimalPos.Unsigned.to_uint_nonnil p) as Hnn.
  now destruct (Pos.to_uint p).
Qed.

Lemma pos_digits_value (p : positive) :
  digits_value (NilEmpty.string_of_uint (Pos.to_uint p)) 0 false
  = Some (Z.pos p).
Proof.
  pose proof (digits_value_zero (Pos.to_uint p) false) as H.
  pose proof (DecimalPos.Unsigned.to_uint_nonnil p) as Hnn.
  rewrite DecimalPos.Unsigned.of_to in H.
  destruct (Pos.to_uint p); try congruence; exact H.
Qed.

(** The text of a positive number starts with no sign. *)
Lemma unsigned_literal (d : uint) :
  d <> Nil ->
  int_literal (NilEmpty.string_of_uint d)
  = digits_value (NilEmpty.string_of_uint d) 0 false.
Proof.
  intros Hnn. unfold int_literal.
  rewrite strip_id by (apply uint_text_digits, digit_no_space).
  destruct d; [congruence | reflexivity ..].
Qed.

Lemma int_literal_of_Z (n : Z) : int_literal (Text.of_Z n) = Some n.
Proof.
  unfold Text.of_Z. destruct n as [|p|p]; [reflexivity | |];
    cbn [Z.to_int NilZero.string_of_int]; rewrite pos_text.
  - rewrite unsigned_literal by apply DecimalPos.Unsigned.to_uint_nonnil.
    apply pos_digits_value.
  - unfold int_literal. rewrite strip_id.
    + now rewrite pos_digits_value.
    + cbn [Text.has_char].
      now rewrite uint_text_digits by apply digit_no_space.
Qed.

Lemma of_Z_no_dot (n : Z) :
  Text.has_char (Ascii.eqb ".") (Text.of_Z n) = false.
Proof.
  unfold Text.of_Z. destruct n as [|p|p]; [reflexivity | |];
    cbn [Z.to_int NilZero.string_of_int]; rewrite pos_text;
    cbn [Text.has_char]; now rewrite uint_text_digits by apply digit_no_dot.
Qed.

Lemma digit_run_text (d : uint) (count : Z) (prev : bool) :
  digit_run (NilEmpty.string_of_uint d) count prev
  = match d with
    | Nil => if prev then Some count else None
    | _ => Some (count
                 + Z.of_nat (String.length (NilEmpty.string_of_uint d)))
    end.
Proof.
  revert count prev.
  induction d as [|d IH|d IH|d IH|d IH|d IH|d IH|d IH|d IH|d IH|d IH];
    intros count prev; [reflexivity|..];
    cbn [NilEmpty.string_of_uint digit_run String.length];
    match goal with
    | |- context [Text.is_digit ?c] => change (Text.is_digit c) with true
    end;
    cbv iota; rewrite IH; destruct d; f_equal; cbn [String.length]; lia.
Qed.

Lemma pos_digit_run (p : positive) :
  digit_run (NilEmpty.string_of_uint (Pos.to_uint p)) 0 false
  = Some (Z.of_nat
            (String.length (NilEmpty.string_of_uint (Pos.to_uint p)))).
Proof.
  pose proof (digit_run_text (Pos.to_uint p) 0 false) as H.
  pose proof (DecimalPos.Unsigned.to_uint_nonnil p) as Hnn.
  destruct (Pos.to_uint p); try congruence; exact H.
Qed.

(** The text of a positive number starts with no sign. *)
Lemma unsigned_count (d : uint) :
  d <> Nil ->
  digit_count (NilEmpty.string_of_uint d)
  = digit_run (NilEmpty.string_of_uint d) 0 false.
Proof.
  intros Hnn. unfold digit_count.
  rewrite strip_id by (apply uint_text_digits, digit_no_space).
  destruct d; [congruence | reflexivity ..].
Qed.

(** [int] counts the digits of the decimal text of [n]. *)
Lemma digit_count_of_Z (n : Z) :
  digit_count (Text.of_Z n)
  = Some (Z.of_nat (String.length (Text.of_Z (Z.abs n)))).
Proof.
  destruct n as [|p|p]; [reflexivity | |].
  - change (Z.abs (Z.pos p)) with (Z.pos p).
    change (Text.of_Z (Z.pos p))
      with (NilZero.string_of_uint (Pos.to_uint p)).
    rewrite pos_text.
    rewrite unsigned_count by apply DecimalPos.Unsigned.to_uint_nonnil.
    apply pos_digit_run.
  - change (Z.abs (Z.neg p)) with (Z.pos p).
    change (Text.of_Z (Z.pos p))
      with (NilZero.string_of_uint (Pos.to_uint p)).
    change (Text.of_Z (Z.neg p))
      with (String "-" (NilZero.string_of_uint (Pos.to_uint p))).
    rewrite pos_text.
    unfold digit_count. rewrite strip_id.
    + apply pos_digit_run.
    + cbn [Text.has_char].
      now rewrite uint_text_digits by apply digit_no_space.
Qed.

(** X6.  An integer of at most 4300 digits (the interpreter's limit for
    integers as text) that is sent as its decimal text is coerced to that
    integer: [_normalise_value(str(n)) = n], negative numbers included, so
    that what [str] writes to the log for an integer feature reads back as
    the same feature. *)
Theorem normalise_value_int_text (n : Z) :
  (String.length (Text.of_Z (Z.abs n)) <= 4300)%nat ->
  str (PInt n) = Text.of_Z n
  /\ _normalise_value (PStr (str (PInt n))) = Return (PInt n).
Proof.
  intros Hlen. split; [reflexivity|].
  change (str (PInt n)) with (Text.of_Z n).
  unfold _normalise_value.
  rewrite TextFacts.contains_char, of_Z_no_dot.
  unfold int_of_str. rewrite digit_count_of_Z.
  replace (max_str_digits <? _) with false
    by (symmetry; apply Z.ltb_ge; unfold max_str_digits; lia).
  now rewrite int_literal_of_Z.
Qed.

(** [normalise_value_int_text] at a negative number. *)
Lemma normalise_value_int_text_witness :
  (String.length (Text.of_Z (Z.abs (-284))) <= 4300)%nat
  /\ _normalise_value (PStr "-284") = Return (PInt (-284)).
Proof.
  assert (H : (String.length (Text.of_Z (Z.abs (-284))) <= 4300)%nat)
    by (apply Nat.leb_le; vm_compute; reflexivity).
  split; [exact H|].
  exact (proj2 (normalise_value_int_text (-284) H)).
Defined.

End IntegerText.

(* ===================================================================== *)
(** * The metrics emitter: [publish_metrics] *)
(* ===================================================================== *)

Module Metrics.
Import Py Cloud App Examples Expected.

Lemma for_each_map {A B} (f : A -> B) (body : B -> M unit) (xs : list A)
    (w : World) :
  for_each xs (fun x => body (f x)) w = for_each (map f xs) body w.
Proof.
  revert w. induction xs as [|x xs IH]; intros w; [reflexivity|].
  cbn [for_each map]. unfold bind. destruct (body (f x) w) as [[[]|e] w'].
  - apply IH.
  - reflexivity.
Qed.

(** [publish_metrics] on a mapping is one loop over [metrics_of]. *)
Lemma publish_metrics_loop (d : dict) (prediction : spec_float)
    (w : World) :
  publish_metrics (PDict d) prediction w
  = for_each (metrics_of d prediction) put_metric_data w.
Proof.
  unfold publish_metrics, metrics_of. cbn [for_each].
  unfold bind at 1 3. fold (prediction_metric prediction).
  destruct (put_metric_data (prediction_metric prediction) w)
    as [[[]|e] w']; [|reflexivity].
  unfold bind, lift. cbn [items].
  apply (for_each_map feature_metric put_metric_data).
Qed.

Lemma all_served_step (n : nat) (o : gmap (string * string) string)
    (c : list MetricCall) (t : datetime) (f : list (option Exn)) :
  all_served (S n) (mkWorld o c t f) = true ->
  next_fault (mkWorld o c t f) = None
  /\ forall c', all_served n (mkWorld o c' t (tl f)) = true.
Proof.
  unfold all_served, next_fault. cbn [faults].
  destruct f as [|[e|] f]; cbn [firstn forallb tl];
    [now destruct n | discriminate | auto].
Qed.

Lemma put_metric_data_step (call : MetricCall)
    (o : gmap (string * string) string) (c : list MetricCall)
    (t : datetime) (f : list (option Exn)) :
  put_metric_data call (mkWorld o c t f)
  = match f with
    | Some e :: rest => (Raise e, mkWorld o c t rest)
    | _ => (Return tt, mkWorld o (c ++ [call])%list t (tl f))
    end.
Proof. now destruct f as [|[e|] f]. Qed.

Lemma emit_served (calls : list MetricCall) (w : World) :
  all_served (List.length calls) w = true ->
  for_each calls put_metric_data w
  = (Return tt,
     mkWorld (s3_objects w) (cw_calls w ++ calls)%list (clock w)
             (skipn (List.length calls) (faults w))).
Proof.
  revert w. induction calls as [|call calls IH]; intros [o c t f] Hs.
  - cbn. now rewrite app_nil_r.
  - cbn [List.length] in Hs. apply all_served_step in Hs as [Hn Hs].
    cbn [for_each]. unfold bind. rewrite put_metric_data_step.
    destruct f as [|[e|] f]; [ | discriminate Hn | ];
      rewrite (IH _ (Hs _));
      cbn [s3_objects cw_calls clock faults List.length tl skipn];
      rewrite <- app_assoc; try reflexivity.
    now destruct (List.length calls).
Qed.

Lemma emit_fails (calls : list MetricCall) (k : nat) (e : Exn)
    (rest : list (option Exn)) (w : World) :
  faults w = (repeat None k ++ Some e :: rest)%list ->
  (k < List.length calls)%nat ->
  for_each calls put_metric_data w
  = (Raise e,
     mkWorld (s3_objects w) (cw_calls w ++ firstn k calls)%list (clock w)
             rest).
Proof.
  revert k w. induction calls as [|call calls IH]; intros k [o c t f] Hf Hk;
    cbn [List.length] in Hk; [lia|].
  cbn [faults] in Hf. subst f.
  cbn [for_each]. unfold bind. rewrite put_metric_data_step.
  destruct k as [|k]; cbn [repeat app tl].
  - cbn. now rewrite app_nil_r.
  - rewrite (IH k); [|reflexivity|lia].
    cbn [s3_objects cw_calls clock faults firstn].
    now rewrite <- app_assoc.
Qed.

(** X7.  When its calls are served, [publish_metrics] returns after
    sending the prediction entry first and then one entry per field of
    the payload, in the payload's key order and for every field, feature
    or not; the entries are added after the earlier ones, and neither the
    store nor the clock is touched. *)
Theorem publish_metrics_served (d : dict) (prediction : spec_float)
    (w : World) :
  all_served (S (List.length d)) w = true ->
  publish_metrics (PDict d) prediction w
  = (Return tt,
     mkWorld (s3_objects w)
             (cw_calls w ++ prediction_metric prediction
                          :: map feature_metric d)%list
             (clock w)
             (skipn (S (List.length d)) (faults w))).
Proof.
  intros Hs. rewrite publish_metrics_loop.
  rewrite emit_served; unfold metrics_of; cbn [List.length];
    rewrite length_map; [reflexivity | exact Hs].
Qed.

(** [publish_metrics_served] at the reference payload: 19 entries. *)
Lemma publish_metrics_served_witness :
  List.length
    (cw_calls (snd (publish_metrics (PDict reference_payload) f_1_5
                      fresh_world)))
  = 19%nat.
Proof.
  rewrite (publish_metrics_served reference_payload f_1_5 fresh_world);
    reflexivity.
Defined.

(** X8.  When the call number k+1 of [publish_metrics] is turned down,
    the function raises that exception at once: the k entries sent before
    stay recorded, no further entry is sent, and nothing is retried. *)
Theorem publish_metrics_stops_at_failure (d : dict)
    (prediction : spec_float) (k : nat) (e : Exn)
    (rest : list (option Exn)) (w : World) :
  faults w = (repeat None k ++ Some e :: rest)%list ->
  (k <= List.length d)%nat ->
  publish_metrics (PDict d) prediction w
  = (Raise e,
     mkWorld (s3_objects w)
             (cw_calls w
                ++ firstn k (prediction_metric prediction
                               :: map feature_metric d))%list
             (clock w) rest).
Proof.
  intros Hf Hk. rewrite publish_metrics_loop.
  apply emit_fails; [exact Hf|].
  unfold metrics_of. cbn [List.length]. rewrite length_map. lia.
Qed.

(** [publish_metrics_stops_at_failure] when the third call is refused. *)
Lemma publish_metrics_stops_at_failure_witness :
  publish_metrics (PDict reference_payload) f_1_5 (denied_after 2)
  = (Raise access_denied,
     mkWorld ∅ [prediction_metric f_1_5; feature_metric ("Age", PInt 30)]
             morning []).
Proof.
  apply (publish_metrics_stops_at_failure reference_payload f_1_5 2
           access_denied [] (denied_after 2)); [reflexivity|].
  cbn. lia.
Defined.

End Metrics.

(* ===================================================================== *)
(** * More about the audit log appender *)
(* ===================================================================== *)

Module AuditLogMore.
Import Py Cloud App Examples Expected PyFacts TextFacts.

(** ** The enriched record *)

Lemma dict_get_set_same (k : string) (v : PyVal) (d : dict) :
  dict_get k (dict_set k v d) = Some v.
Proof.
  induction d as [|[k' v'] d IH]; cbn [dict_set].
  - rewrite dict_get_cons. now rewrite String.eqb_refl.
  - destruct (String.eqb k k') eqn:E; rewrite dict_get_cons.
    + now rewrite String.eqb_refl.
    + now rewrite E.
Qed.

Lemma dict_get_set_other (k k' : string) (v : PyVal) (d : dict) :
  k' <> k -> dict_get k' (dict_set k v d) = dict_get k' d.
Proof.
  intros Hne. induction d as [|[k0 v0] d IH]; cbn [dict_set].
  - rewrite dict_get_cons. apply String.eqb_neq in Hne. now rewrite Hne.
  - destruct (String.eqb_spec k k0) as [->|Hk]; rewrite !dict_get_cons.
    + apply String.eqb_neq in Hne. now rewrite Hne.
    + now rewrite IH.
Qed.

Lemma dict_keys_set (k : string) (v : PyVal) (d : dict) :
  dict_keys (dict_set k v d)
  = (dict_keys d ++ if dict_has k d then [] else [k])%list.
Proof.
  unfold dict_keys. induction d as [|[k' v'] d IH]; [reflexivity|].
  cbn [dict_set]. rewrite dict_has_cons.
  destruct (String.eqb_spec k k') as [->|Hk]; cbn [orb map fst app].
  - now rewrite app_nil_r.
  - now rewrite IH.
Qed.

Lemma dict_has_set (k k' : string) (v : PyVal) (d : dict) :
  dict_has k' (dict_set k v d) = String.eqb k' k || dict_has k' d.
Proof.
  rewrite !dict_has_get.
  destruct (String.eqb_spec k' k) as [->|Hne].
  - now rewrite dict_get_set_same.
  - now rewrite dict_get_set_other.
Qed.

(** X9.  In the record that goes to the log the three derived fields
    always carry the prediction, the timestamp and the model version,
    also when the payload has fields of these names; every other field
    keeps its value; and the field names are those of the payload in the
    payload's order, followed by the derived names that the payload does
    not have. *)
Theorem enriched_record_fields (d : dict) (prediction : spec_float)
    (timestamp : string) (version : PyVal) :
  let record := enriched_record d prediction timestamp version in
  dict_get "credit_score_prediction" record = Some (PFloat prediction)
  /\ dict_get "timestamp" record = Some (PStr timestamp)
  /\ dict_get "model_version" record = Some version
  /\ (forall key, ~ In key derived_keys ->
        dict_get key record = dict_get key d)
  /\ dict_keys record
     = (dict_keys d
          ++ List.filter (fun key => negb (dict_has key d))
                         derived_keys)%list.
Proof.
  intros record. unfold record, enriched_record. repeat apply conj.
  - rewrite !dict_get_set_other by discriminate. apply dict_get_set_same.
  - rewrite dict_get_set_other by discriminate. apply dict_get_set_same.
  - apply dict_get_set_same.
  - intros key Hkey. unfold derived_keys in Hkey. cbn [In] in Hkey.
    rewrite !dict_get_set_other; [reflexivity | | |];
      intros ->; tauto.
  - rewrite !dict_keys_set, !dict_has_set. cbn [String.eqb Ascii.eqb
      Bool.eqb orb]. unfold derived_keys.
    cbn [List.filter]. rewrite <- !app_assoc.
    destruct (dict_has "credit_score_prediction" d),
             (dict_has "timestamp" d), (dict_has "model_version" d);
      reflexivity.
Qed.

Section WithMetadata.

Variable MODEL_INFO : dict.

Abbreviation write_real_data_to_s3 := (App.write_real_data_to_s3 MODEL_INFO).

(** ** What the function leaves alone *)

Lemma get_object_world (bucket key : string) (w w1 : World)
    (r : Outcome string) :
  get_object bucket key w = (r, w1) -> w1 = consume w.
Proof.
  unfold get_object, service_call.
  destruct (next_fault w); [now intros [= _ <-]|].
  destruct (_ !! _); now intros [= _ <-].
Qed.

Lemma fetch_log_world (key : string) (enriched : dict) (w w1 : World)
    (r : Outcome (string * list string)) :
  fetch_log key enriched w = (r, w1) -> w1 = consume w.
Proof.
  unfold fetch_log, try_except, bind.
  destruct (get_object BUCKET_NAME key w) as [[existing|e] w0] eqn:E;
    apply get_object_world in E; subst w0.
  - destruct (Text.splitlines existing); now intros [= _ <-].
  - destruct (is_no_such_key e); now intros [= _ <-].
Qed.

(** X10.  Whatever its outcome, [write_real_data_to_s3] sends no metric,
    leaves the clock alone and changes no object other than the log of
    the day; and when it raises, the log of the day is unchanged too. *)
Theorem write_touches_one_object (data : PyVal) (prediction : spec_float)
    (w w' : World) (r : Outcome unit) :
  write_real_data_to_s3 data prediction w = (r, w') ->
  cw_calls w' = cw_calls w
  /\ clock w' = clock w
  /\ (forall k, k <> (BUCKET_NAME, log_key (clock w)) ->
        s3_objects w' !! k = s3_objects w !! k)
  /\ (forall e, r = Raise e -> s3_objects w' = s3_objects w).
Proof.
  unfold App.write_real_data_to_s3, bind, datetime_now, lift.
  destruct (App.enrich MODEL_INFO data prediction _) as [enriched|e0].
  2: { intros [= <- <-]. repeat apply conj; auto. }
  destruct (fetch_log _ enriched w) as [[hr|e1] w1] eqn:Ef;
    apply fetch_log_world in Ef; subst w1.
  2: { intros [= <- <-]. repeat apply conj; auto. }
  unfold put_object, service_call.
  destruct (next_fault (consume w)) as [e2|]; intros [= <- <-].
  - repeat apply conj; auto.
  - repeat apply conj; try reflexivity.
    + intros k Hk. cbn [s3_objects with_objects consume with_faults].
      now rewrite lookup_insert_ne.
    + discriminate.
Qed.

(** ** Failures of the store *)

Lemma fetch_log_served (key : string) (enriched : dict) (w : World)
    (header : string) (rows : list string) :
  next_fault w = None ->
  PriorLog (s3_objects w !! (BUCKET_NAME, key)) enriched header rows ->
  fetch_log key enriched w = (Return (header, rows), consume w).
Proof.
  intros Hf Hprior. unfold fetch_log, try_except, bind.
  destruct Hprior as [existing header rows Hl Hs | Hl].
  - now rewrite (AuditLog.get_object_found _ existing w Hf Hl), Hs.
  - now rewrite (AuditLog.get_object_absent _ w Hf Hl).
Qed.

(** X11.  A failure of the fetch other than the no-such-key condition is
    not taken for a missing log: [write_real_data_to_s3] raises that
    exception, nothing is written and the store is as before. *)
Theorem fetch_failure_propagates (d : dict) (prediction : spec_float)
    (version : PyVal) (w w1 : World) (e : Exn) :
  dict_get "version" MODEL_INFO = Some version ->
  get_object BUCKET_NAME (log_key (clock w)) w = (Raise e, w1) ->
  is_no_such_key e = false ->
  write_real_data_to_s3 (PDict d) prediction w = (Raise e, w1)
  /\ s3_objects w1 = s3_objects w.
Proof.
  intros Hv Hget Hnsk. split.
  - unfold App.write_real_data_to_s3, bind, datetime_now, lift.
    rewrite (AuditLog.enrich_dict MODEL_INFO d prediction _ version Hv).
    unfold fetch_log, try_except, bind. now rewrite Hget, Hnsk.
  - apply get_object_world in Hget. now subst w1.
Qed.

(** X12.  When the log has been fetched, or found missing, and the write
    is turned down, [write_real_data_to_s3] raises that exception and the
    store is as before: the new row is lost and the old log is intact. *)
Theorem put_failure_propagates (d : dict) (prediction : spec_float)
    (version : PyVal) (w : World) (header : string) (rows : list string)
    (e : Exn) :
  dict_get "version" MODEL_INFO = Some version ->
  let record :=
    enriched_record d prediction (strftime_timestamp (clock w)) version in
  next_fault w = None ->
  PriorLog (s3_objects w !! (BUCKET_NAME, log_key (clock w))) record
           header rows ->
  next_fault (consume w) = Some e ->
  exists w',
    write_real_data_to_s3 (PDict d) prediction w = (Raise e, w')
    /\ s3_objects w' = s3_objects w.
Proof.
  intros Hv record Hf Hprior Hput.
  exists (consume (consume w)). split; [|reflexivity].
  unfold App.write_real_data_to_s3, bind, datetime_now, lift.
  rewrite (AuditLog.enrich_dict MODEL_INFO d prediction _ version Hv).
  fold record. rewrite (fetch_log_served _ record w header rows Hf Hprior).
  unfold put_object, service_call. now rewrite Hput.
Qed.

(** ** Appends in sequence *)


End WithMetadata.

(** [write_touches_one_object] at a request on a day with one logged row
    and an object of another day beside it. *)
Lemma write_touches_one_object_witness :
  let w := with_objects (<[(BUCKET_NAME, "other") := "x"]>
                          (s3_objects logged_world)) logged_world in
  s3_objects
    (snd (App.write_real_data_to_s3 sample_info (PDict reference_payload)
            f_1_5 w)) !! (BUCKET_NAME, "other")
  = Some "x".
Proof.
  intros w.
  destruct (write_touches_one_object sample_info (PDict reference_payload)
              f_1_5 w
              (snd (App.write_real_data_to_s3 sample_info
                      (PDict reference_payload) f_1_5 w))
              (fst (App.write_real_data_to_s3 sample_info
                      (PDict reference_payload) f_1_5 w)))
    as (_ & _ & Hother & _).
  - now destruct (App.write_real_data_to_s3 _ _ _ w).
  - rewrite Hother; [vm_compute; reflexivity|]. vm_compute. discriminate.
Defined.

(** [fetch_failure_propagates] on a day when the store refuses the read. *)
Lemma fetch_failure_propagates_witness :
  App.write_real_data_to_s3 sample_info (PDict reference_payload) f_1_5
                            (denied_after 0)
  = (Raise access_denied, consume (denied_after 0)).
Proof.
  apply (fetch_failure_propagates sample_info reference_payload f_1_5
           (PStr "1.0") (denied_after 0) (consume (denied_after 0))
           access_denied); reflexivity.
Defined.

(** [put_failure_propagates] on a day without log when the second call to
    the store is refused. *)
Lemma put_failure_propagates_witness :
  exists w',
    App.write_real_data_to_s3 sample_info (PDict reference_payload) f_1_5
                              (denied_after 1)
    = (Raise access_denied, w')
    /\ s3_objects w' = s3_objects (denied_after 1).
Proof.
  apply (put_failure_propagates sample_info reference_payload f_1_5
           (PStr "1.0") (denied_after 1)
           (csv_header
              (enriched_record reference_payload f_1_5
                 (Cloud.strftime_timestamp morning) (PStr "1.0")))
           [] access_denied); try reflexivity.
  apply prior_absent. reflexivity.
Defined.


End AuditLogMore.

(* ===================================================================== *)
(** * More about the orchestrator *)
(* ===================================================================== *)

Module OrchestratorMore.
Import Py Cloud App Examples Expected PyFacts.

Section WithService.

Variable MODEL_predict : list (list PyVal) -> Outcome (list PyVal).
Variable MODEL_INFO : dict.
Variable json_decode : string -> Outcome PyVal.

Abbreviation handler := (App.handler MODEL_predict MODEL_INFO json_decode).
Abbreviation predict := (App.predict MODEL_predict).
Abbreviation extract_payload := (App.extract_payload json_decode).
Abbreviation write_real_data_to_s3 := (App.write_real_data_to_s3 MODEL_INFO).

(** X14.  Every response of [handler] has the JSON content type and
    status 400 or 200.  Status 400 means that normalisation or inference
    raised, that the body carries that exception's message, and that
    nothing was emitted or written; status 200 means that both side
    effects ran and returned. *)
Theorem handler_response_shape (event : dict) (w w' : World)
    (r : Response) :
  handler event w = (Return r, w') ->
  headers r = [("Content-Type", "application/json")]
  /\ ((statusCode r = 400 /\ w' = w
       /\ exists payload exc,
            extract_payload event = Return payload
            /\ predict payload = Raise exc
            /\ body r = json_dumps (PDict [("error", PStr (exn_str exc))]))
      \/ (statusCode r = 200
          /\ exists payload prediction version w1,
               extract_payload event = Return payload
               /\ predict payload = Return prediction
               /\ publish_metrics payload prediction w = (Return tt, w1)
               /\ write_real_data_to_s3 payload prediction w1
                  = (Return tt, w')
               /\ dict_get "version" MODEL_INFO = Some version
               /\ body r
                  = json_dumps (PDict [("prediction", PFloat prediction);
                                       ("version", version)]))).
Proof.
  unfold App.handler, bind at 1, lift at 1.
  destruct (extract_payload event) as [payload|e0]; [|discriminate].
  destruct (predict payload) as [prediction|exc] eqn:Hp.
  - unfold bind, lift.
    destruct (publish_metrics payload prediction w) as [[[]|e1] w1] eqn:Hpub;
      [|discriminate].
    destruct (write_real_data_to_s3 payload prediction w1)
      as [[[]|e2] w2] eqn:Hw; [|discriminate].
    cbn [getitem].
    destruct (dict_get "version" MODEL_INFO) as [version|] eqn:Hv;
      [|discriminate].
    intros [= <- <-]. split; [reflexivity|]. right.
    split; [reflexivity|].
    exists payload, prediction, version, w1. repeat apply conj; auto.
  - intros [= <- <-]. split; [reflexivity|]. left.
    repeat apply conj; try reflexivity.
    exists payload, exc. repeat apply conj; auto.
Qed.

(** X15.  The two envelopes are treated alike: a gateway event whose
    body decodes to an object, and a direct event whose data are the data
    of that object (or are absent like them), get the same outcome in the
    same world. *)
Theorem envelopes_agree (gateway direct decoded : dict) (text : string)
    (w : World) :
  dict_get "body" gateway = Some (PStr text) ->
  json_decode text = Return (PDict decoded) ->
  dict_has "body" direct = false ->
  dict_get "data" direct = dict_get "data" decoded ->
  handler gateway w = handler direct w.
Proof.
  intros Hbody Hdec Hnb Hdata.
  assert (He : extract_payload gateway = extract_payload direct).
  { unfold App.extract_payload, dict_get_default.
    rewrite dict_has_get, Hbody, Hnb. cbn [json_loads obind get].
    rewrite Hdec. cbn [obind get]. unfold dict_get_default.
    now rewrite Hdata. }
  unfold App.handler. now rewrite He.
Qed.

(** X16.  An event that has neither a body nor data, and a gateway event
    whose body decodes to an object without data, are handled as an empty
    record: status 400 for the missing [Age], and nothing touched. *)
Theorem absent_data_is_empty_record (event : dict) (w : World) :
  (dict_has "body" event = false /\ dict_has "data" event = false)
  \/ (exists text decoded,
        dict_get "body" event = Some (PStr text)
        /\ json_decode text = Return (PDict decoded)
        /\ dict_has "data" decoded = false) ->
  handler event w
  = (Return (mkResponse 400 [("Content-Type", "application/json")]
               ("{" ++ q ++ "error" ++ q ++ ": " ++ q
                    ++ "Feature 'Age' missing from payload." ++ q ++ "}")),
     w).
Proof.
  intros H.
  assert (He : extract_payload event = Return (PDict [])).
  { unfold App.extract_payload, dict_get_default.
    destruct H as [[Hb Hd] | (text & decoded & Hb & Hdec & Hd)].
    - rewrite Hb. now rewrite (dict_has_false _ _ Hd).
    - rewrite dict_has_get, Hb. cbn [json_loads obind]. rewrite Hdec.
      cbn [obind get]. unfold dict_get_default.
      now rewrite (dict_has_false _ _ Hd). }
  rewrite (Orchestrator.handler_rejects MODEL_predict MODEL_INFO json_decode
             event (PDict []) (missing_feature "Age") w He); reflexivity.
Qed.

(** X17.  A body that decodes to something other than an object (an
    array, a number, a string, a boolean, null) makes [handler] raise an
    [AttributeError]: no response is returned and nothing is touched. *)
Theorem body_must_be_object (event : dict) (raw v : PyVal) (w : World) :
  dict_get "body" event = Some raw ->
  json_loads json_decode raw = Return v ->
  (forall d, v <> PDict d) ->
  handler event w
  = (Raise (mkExn AttributeError
              ("'" ++ type_name v ++ "' object has no attribute 'get'")),
     w).
Proof.
  intros Hbody Hloads Hv.
  unfold App.handler, App.extract_payload, bind, lift, dict_get_default.
  rewrite dict_has_get, Hbody, Hloads. cbn [obind].
  destruct v; try reflexivity. now destruct (Hv kvs).
Qed.

(** X18.  A failure of the model, an empty result of the model, and a
    first score that is no number all end in status 400 with the message
    of the exception, and nothing is emitted or written. *)
Theorem inference_failure_rejected (event : dict) (payload : PyVal)
    (features : list PyVal) (exc : Exn) (w : World) :
  extract_payload event = Return payload ->
  prepare_payload payload = Return features ->
  obind (MODEL_predict [features])
        (fun scores => obind (first scores) float) = Raise exc ->
  handler event w
  = (Return (mkResponse 400 [("Content-Type", "application/json")]
               (json_dumps (PDict [("error", PStr (exn_str exc))]))),
     w).
Proof.
  intros He Hn Hm.
  apply (Orchestrator.handler_rejects MODEL_predict MODEL_INFO json_decode
           event payload exc w He).
  unfold App.predict. rewrite Hn. exact Hm.
Qed.

Lemma all_served_repeat (n : nat) (o : gmap (string * string) string)
    (c : list MetricCall) (t : datetime) (rest : list (option Exn)) :
  all_served n (mkWorld o c t (repeat None n ++ rest)%list) = true.
Proof.
  unfold all_served. cbn [faults].
  induction n as [|n IH]; [reflexivity|]. cbn. exact IH.
Qed.

Lemma skipn_repeat {A} (x : A) (n : nat) (rest : list A) :
  skipn n (repeat x n ++ rest)%list = rest.
Proof. induction n as [|n IH]; [reflexivity | exact IH]. Qed.

(** X19.  When the metrics have been sent and the store then refuses the
    fetch of the log, the request ends with that exception and without a
    response, and the metrics stay: all the entries of the request are
    recorded although no row was logged. *)
Theorem failed_audit_keeps_metrics (event d : dict)
    (prediction : spec_float) (version : PyVal) (e : Exn)
    (rest : list (option Exn)) (w : World) :
  extract_payload event = Return (PDict d) ->
  predict (PDict d) = Return prediction ->
  dict_get "version" MODEL_INFO = Some version ->
  faults w = (repeat None (S (List.length d)) ++ Some e :: rest)%list ->
  is_no_such_key e = false ->
  exists w',
    handler event w = (Raise e, w')
    /\ cw_calls w'
       = (cw_calls w ++ prediction_metric prediction
                       :: map feature_metric d)%list
    /\ s3_objects w' = s3_objects w.
Proof.
  intros He Hp Hv Hf Hnsk. destruct w as [o c t f]. cbn [faults] in Hf.
  subst f.
  rewrite (Orchestrator.handler_accepts MODEL_predict MODEL_INFO json_decode
             event (PDict d) prediction _ He Hp).
  unfold bind at 1. rewrite Metrics.publish_metrics_loop.
  rewrite Metrics.emit_served.
  2: { unfold metrics_of. cbn [List.length]. rewrite length_map.
       apply (all_served_repeat (S (List.length d))). }
  unfold metrics_of at 2. cbn [List.length faults s3_objects cw_calls clock].
  rewrite length_map.
  rewrite (skipn_repeat None (S (List.length d))).
  unfold bind at 1.
  unfold App.write_real_data_to_s3, bind at 1, datetime_now, bind at 1,
    lift.
  rewrite (AuditLog.enrich_dict MODEL_INFO d prediction _ version Hv).
  unfold bind at 1, fetch_log, try_except, bind at 1, get_object,
    service_call, next_fault.
  cbn [faults]. rewrite Hnsk.
  eexists. split; [reflexivity|]. split; reflexivity.
Qed.

(** X20.  When the metadata have no version, a request that is inferred
    successfully sends its metrics and then ends with a [KeyError] for
    [version]: no row is logged, no call reaches the store, and no
    response is returned. *)
Theorem missing_version_breaks_request (event d : dict)
    (prediction : spec_float) (w w1 : World) :
  dict_get "version" MODEL_INFO = None ->
  extract_payload event = Return (PDict d) ->
  predict (PDict d) = Return prediction ->
  publish_metrics (PDict d) prediction w = (Return tt, w1) ->
  write_real_data_to_s3 (PDict d) prediction w1
  = (Raise (mkExn KeyError "'version'"), w1)
  /\ handler event w = (Raise (mkExn KeyError "'version'"), w1).
Proof.
  intros Hv He Hp Hpub.
  assert (Hw : write_real_data_to_s3 (PDict d) prediction w1
               = (Raise (mkExn KeyError "'version'"), w1)).
  { unfold App.write_real_data_to_s3, bind, datetime_now, lift, App.enrich.
    cbn [unpack_mapping obind getitem]. now rewrite Hv. }
  split; [exact Hw|].
  rewrite (Orchestrator.handler_accepts MODEL_predict MODEL_INFO json_decode
             event (PDict d) prediction w He Hp).
  unfold bind. now rewrite Hpub, Hw.
Qed.


End WithService.

(** [handler_response_shape] at the request with an empty record. *)
Lemma handler_response_shape_witness :
  snd (App.handler sample_model sample_info sample_decode
         (direct_event []) fresh_world)
  = fresh_world.
Proof.
  destruct (App.handler sample_model sample_info sample_decode
              (direct_event []) fresh_world) as [[r|e] w'] eqn:E;
    [|discriminate E].
  destruct (handler_response_shape sample_model sample_info sample_decode
              (direct_event []) fresh_world w' r E)
    as [_ [(_ & Hw & _) | (Hs & _)]].
  - exact Hw.
  - vm_compute in E. inversion E; subst. discriminate Hs.
Defined.

(** [envelopes_agree] at the gateway event and the direct event of an
    empty record. *)
Lemma envelopes_agree_witness :
  App.handler sample_model sample_info sample_decode
              [("body", PStr sample_body)] fresh_world
  = App.handler sample_model sample_info sample_decode
                (direct_event []) fresh_world.
Proof.
  apply (envelopes_agree sample_model sample_info sample_decode
           [("body", PStr sample_body)] (direct_event [])
           [("data", PDict [])] sample_body); reflexivity.
Defined.

(** [absent_data_is_empty_record] at the empty event. *)
Lemma absent_data_is_empty_record_witness :
  fst (App.handler sample_model sample_info sample_decode [] fresh_world)
  = Return (mkResponse 400 [("Content-Type", "application/json")]
              ("{" ++ q ++ "error" ++ q ++ ": " ++ q
                   ++ "Feature 'Age' missing from payload." ++ q ++ "}")).
Proof.
  rewrite (absent_data_is_empty_record sample_model sample_info
             sample_decode [] fresh_world); [reflexivity|].
  left. split; reflexivity.
Defined.

(** [body_must_be_object] at a body that is the empty array. *)
Lemma body_must_be_object_witness :
  App.handler sample_model sample_info array_decode
              [("body", PStr "[]")] fresh_world
  = (Raise (mkExn AttributeError "'list' object has no attribute 'get'"),
     fresh_world).
Proof.
  apply (body_must_be_object sample_model sample_info array_decode
           [("body", PStr "[]")] (PStr "[]") (PList []));
    [reflexivity | reflexivity | discriminate].
Defined.

(** [inference_failure_rejected] at a model that returns no score. *)
Lemma inference_failure_rejected_witness :
  App.handler silent_model sample_info sample_decode
              (direct_event reference_payload) fresh_world
  = (Return (mkResponse 400 [("Content-Type", "application/json")]
               ("{" ++ q ++ "error" ++ q ++ ": " ++ q
                    ++ "list index out of range" ++ q ++ "}")),
     fresh_world).
Proof.
  apply (inference_failure_rejected silent_model sample_info sample_decode
           (direct_event reference_payload) (PDict reference_payload)
           (map snd reference_payload)
           (mkExn IndexError "list index out of range"));
    vm_compute; reflexivity.
Defined.

(** [failed_audit_keeps_metrics] at the reference request on a day when
    the store refuses the read after the 19 metric calls. *)
Lemma failed_audit_keeps_metrics_witness :
  exists w',
    App.handler sample_model sample_info sample_decode
                (direct_event reference_payload) (denied_after 19)
    = (Raise access_denied, w')
    /\ List.length (cw_calls w') = 19%nat
    /\ s3_objects w' = ∅.
Proof.
  destruct (failed_audit_keeps_metrics sample_model sample_info
              sample_decode (direct_event reference_payload)
              reference_payload f_1_5 (PStr "1.0") access_denied []
              (denied_after 19))
    as (w' & Hh & Hc & Hs); [ vm_compute; reflexivity .. | ].
  exists w'. repeat apply conj; [exact Hh | now rewrite Hc | exact Hs].
Defined.

(** [missing_version_breaks_request] at the reference request with empty
    metadata. *)
Lemma missing_version_breaks_request_witness :
  fst (App.handler sample_model [] sample_decode
                   (direct_event reference_payload) fresh_world)
  = Raise (mkExn KeyError "'version'").
Proof.
  set (w1 := snd (publish_metrics (PDict reference_payload) f_1_5
                    fresh_world)).
  destruct (missing_version_breaks_request sample_model [] sample_decode
              (direct_event reference_payload) reference_payload f_1_5
              fresh_world w1)
    as [_ Hh]; [ vm_compute; reflexivity .. | ].
  now rewrite Hh.
Defined.


End OrchestratorMore.
